(** * The Cal.com webhook route of discuno: a shallow embedding

    The route handler [POST] (and its helper [storeBooking]) receives a signed
    webhook delivery, checks the signature over the raw body, parses the body
    and dispatches on the event tag.  Everything the handler calls outside
    itself (crypto, [JSON.parse], the zod schema, the queries, the refund
    action, the console) is a collaborator whose outcome is an input of the
    model.  The handler runs in a monad of state and exceptions; the state is
    the environment of the collaborators and a trace of what the handler did
    to the world: the console lines, the [JSON.parse] of the body, and the
    calls of the queries and of the refund action. *)

From Stdlib Require Import String Ascii List ZArith Lia Bool Floats DecimalString.
Import ListNotations.

Local Open Scope string_scope.
Local Open Scope Z_scope.

(** ** The JavaScript values the handler touches *)

Module Js.

(** A runtime value.  [JSON.parse] produces every constructor but
    [VUndefined], which reading an absent property produces.  Numbers are
    IEEE 754 doubles, as in the language. *)
#[warnings="-register-all"]
Inductive value : Type :=
| VUndefined
| VNull
| VBool (b : bool)
| VNum (x : float)
| VStr (s : string)
| VArr (xs : list value)
| VObj (props : list (string * value)).

(** What a [throw] carries: an [Error] object (with its [name] and
    [message]) or any other value. *)
Inductive thrown : Type :=
| ErrorObj (name message : string)
| NonError (v : value).

Definition TypeError (message : string) : thrown := ErrorObj "TypeError" message.
Definition RangeError (message : string) : thrown := ErrorObj "RangeError" message.

(** [ToBoolean]: the test of [if (x)] and [!x]. *)
Definition toBoolean (v : value) : bool :=
  match v with
  | VUndefined | VNull => false
  | VBool b => b
  | VNum x => negb (PrimFloat.is_zero x || PrimFloat.is_nan x)
  | VStr s => negb (s =? "")%string
  | VArr _ | VObj _ => true
  end.

(** Own-property lookup in an object literal; the first binding of a key
    is the live one. *)
Fixpoint lookup (k : string) (props : list (string * value)) : value :=
  match props with
  | [] => VUndefined
  | (k', v) :: rest => if (k' =? k)%string then v else lookup k rest
  end.

(** [v.k] for the property names the handler reads ([triggerEvent],
    [payload], [metadata], [paymentId], [mentorUserId], [actorUserId]):
    none of them is inherited from a prototype, so the read is an
    own-property lookup on an object, [undefined] on any other non-nullish
    value, and a [TypeError] on [undefined] and [null]. *)
Definition getProp (v : value) (k : string) : thrown + value :=
  match v with
  | VUndefined =>
      inl (TypeError ("Cannot read properties of undefined (reading '" ++ k ++ "')"))
  | VNull =>
      inl (TypeError ("Cannot read properties of null (reading '" ++ k ++ "')"))
  | VObj props => inr (lookup k props)
  | VBool _ | VNum _ | VStr _ | VArr _ => inr VUndefined
  end.

(** [a ?? b] *)
Definition nullish (a b : value) : value :=
  match a with
  | VUndefined | VNull => b
  | _ => a
  end.

(** [error instanceof Error ? error.message : 'Unknown error'] *)
Definition errorMessage (e : thrown) : string :=
  match e with
  | ErrorObj _ m => m
  | NonError _ => "Unknown error"
  end.

(** *** ToString

    A template literal applies ToString to each value it interpolates.  On a
    primitive that cannot throw.  An object parsed from JSON is converted by
    its [toString] method: the inherited one answers, but an own property
    [toString] hides it, is not callable (no JSON value is), and the
    inherited [valueOf] hands back the object itself, so the conversion
    throws a [TypeError].  An array is joined: each element that is neither
    [undefined] nor [null] is converted in turn, and the conversion throws
    when that of an element does. *)
Fixpoint has_own {A : Type} (k : string) (props : list (string * A)) : bool :=
  match props with
  | [] => false
  | (k', _) :: rest => (k' =? k)%string || has_own k rest
  end.

Fixpoint toString_throws (v : value) : bool :=
  match v with
  | VObj props => has_own "toString" props
  | VArr xs => existsb toString_throws xs
  | VUndefined | VNull | VBool _ | VNum _ | VStr _ => false
  end.

Definition conversion_error : thrown :=
  TypeError "Cannot convert object to primitive value".

(** *** Dates

    A [Date] holds a time value: a whole number of milliseconds since the
    epoch, at most 8.64e15 in magnitude, or NaN (an Invalid Date).  The
    numbers of the end-time computation are modelled as [option Z], [None]
    being NaN.  For a whole number of minutes the double arithmetic of
    [start.getTime() + length * 60000] is exact wherever the exact sum is
    within the range of TimeClip (all the integers involved are below 2^53
    or multiples of 32 below 2^58), and it is out of that range exactly
    when the exact sum is. *)
Definition number := option Z.
Definition Date := option Z.

Definition add (a b : number) : number :=
  match a, b with
  | Some x, Some y => Some (x + y)
  | _, _ => None
  end.

Definition mul (a b : number) : number :=
  match a, b with
  | Some x, Some y => Some (x * y)
  | _, _ => None
  end.

Definition maxTime : Z := 8640000000000000.

Definition TimeClip (t : number) : number :=
  match t with
  | Some x => if Z.abs x <=? maxTime then Some x else None
  | None => None
  end.

(** [new Date(n)] for a number [n], and [d.getTime()] *)
Definition newDate (t : number) : Date := TimeClip t.
Definition getTime (d : Date) : number := d.

End Js.

(** ** Buffers and the crypto primitives *)

Module Buffer.

(** [Buffer.from(s, 'utf8')] on a header value or a hex digest.  A header
    value is a byte string (every character is below 256), so a character
    encodes to one byte below 128 and to two bytes from 128 on. *)
Definition utf8_char (c : ascii) : list Byte.byte :=
  let n := nat_of_ascii c in
  if (n <? 128)%nat then [byte_of_ascii c]
  else [byte_of_ascii (ascii_of_nat (192 + n / 64));
        byte_of_ascii (ascii_of_nat (128 + n mod 64))].

Fixpoint from_utf8 (s : string) : list Byte.byte :=
  match s with
  | EmptyString => []
  | String c s' => utf8_char c ++ from_utf8 s'
  end.

Definition hexdigit (d : nat) : ascii :=
  nth d (list_ascii_of_string "0123456789abcdef") "0"%char.

(** [digest('hex')]: two lower-case hexadecimal digits per byte *)
Fixpoint hex (bs : list Byte.byte) : string :=
  match bs with
  | [] => EmptyString
  | b :: bs' =>
      let n := Byte.to_nat b in
      String (hexdigit (n / 16)) (String (hexdigit (n mod 16)) (hex bs'))
  end.

Fixpoint bytes_eqb (a b : list Byte.byte) : bool :=
  match a, b with
  | [], [] => true
  | x :: a', y :: b' => Byte.eqb x y && bytes_eqb a' b'
  | _, _ => false
  end.

(** [crypto.timingSafeEqual(a, b)]: throws a [RangeError] when the two
    buffers differ in byte length, else tells whether they hold the same
    bytes. *)
Definition timingSafeEqual (a b : list Byte.byte) : Js.thrown + bool :=
  if (List.length a =? List.length b)%nat then inr (bytes_eqb a b)
  else inl (Js.RangeError "Input buffers must have the same byte length").

End Buffer.

(** ** The records of the schema and of the queries *)

Module Calcom.

(** Modelled from the spec: the schema module ([~/lib/schemas/calcom]) is not
    among the sources.  The validated booking payload ([validation.data]) is,
    in the spec's words, a record with a provider booking identifier, a unique
    identifier string, a title, a list of attendees (each with name, email,
    optional phone, timezone), a start time, a duration in minutes, an
    organizer (user id, email, username, name), an event-type id and a
    metadata bag (optional payment id, optional mentor and actor user ids,
    optional video-call URL); [description] is read by [storeBooking]. *)
Record Attendee : Type := {
  name : string;
  email : string;
  phoneNumber : option string;
  timeZone : string
}.

Record Organizer : Type := {
  organizer_id : Z;
  organizer_email : string;
  organizer_username : string;
  organizer_name : string
}.

Record Metadata : Type := {
  paymentId : option string;
  mentorUserId : option string;
  actorUserId : option string;
  videoCallUrl : option string
}.

Record CalcomBookingPayload : Type := {
  bookingId : Z;
  uid : string;
  title : string;
  description : option string;
  attendees : list Attendee;
  startTime : string;
  length : Z;
  organizer : Organizer;
  eventTypeId : Z;
  metadata : Metadata
}.

End Calcom.

Module Queries.

(** The argument object [storeBooking] builds for [createLocalBooking] *)
Record BookingOrganizer : Type := {
  userId : option string;
  organizer_email : string;
  organizer_username : string;
  organizer_name : string
}.

Record BookingAttendee : Type := {
  name : string;
  email : string;
  phoneNumber : option string;
  timeZone : string
}.

Record NewLocalBooking : Type := {
  calcomBookingId : Z;
  calcomUid : string;
  title : string;
  description : option string;
  startTime : Js.Date;
  duration : Z;
  endTime : Js.Date;
  meetingUrl : option string;
  calcomEventTypeId : Z;
  paymentId : option float;
  organizer : BookingOrganizer;
  attendee : BookingAttendee;
  webhookPayload : Js.value
}.

(** The argument object of [createAnalyticsEvent] *)
Record AnalyticsEvent : Type := {
  eventType : string;
  targetUserId : Js.value;
  actorUserId : Js.value
}.

End Queries.

(** ** The request *)

(** What the handler reads of the [Request]: [req.headers.get(name)] and the
    body text [await req.text()]. *)
Record Request : Type := {
  headers_get : string -> option string;
  text : string
}.

(** ** The collaborators

    None of these is code of the route: the environment ([env]), node's
    [crypto], [JSON.parse], the zod schema, [Date] and [Number], the two
    queries and the refund action.  [Env] is whatever state the queries and
    the payment provider hold; a call may change it and may throw. *)
Class Collaborators : Type := {
  Env : Type;
  LocalBooking : Type;
  SchemaIssues : Type;
  CALCOM_WEBHOOK_SECRET : string;
  (** [crypto.createHmac('sha256', key).update(data).digest()] *)
  hmacSha256 : string -> string -> list Byte.byte;
  hmacSha256_length : forall key data, List.length (hmacSha256 key data) = 32%nat;
  (** [JSON.parse(text)] *)
  JSON_parse : string -> Js.thrown + Js.value;
  (** [CalcomBookingPayloadSchema.safeParse(event)]: the issues
      ([validation.error.flatten()]) or [validation.data] *)
  safeParse : Js.value -> SchemaIssues + Calcom.CalcomBookingPayload;
  (** [new Date(startTime)] and [Number(s)] *)
  Date_of_string : string -> Js.Date;
  Number_of_string : string -> float;
  createLocalBooking :
    Queries.NewLocalBooking -> Env -> (Js.thrown + LocalBooking) * Env;
  (** [booking.id] *)
  booking_id : LocalBooking -> Js.value;
  refundStripePaymentIntent : Js.value -> Env -> (Js.thrown + unit) * Env;
  createAnalyticsEvent : Queries.AnalyticsEvent -> Env -> (Js.thrown + unit) * Env
}.

(** ** Responses, the trace and the handler monad *)

Section Handler.

Context {C : Collaborators}.

Import Js.

(** The body handed to [Response.json]: an object literal, or the booking
    [createLocalBooking] returned. *)
Inductive Body : Type :=
| JsonBody (v : value)
| BookingBody (booking : LocalBooking).

Record Response : Type := {
  status : Z;
  body : Body
}.

(** [Response.json(data, { status })]; the status defaults to 200 *)
Definition Response_json (data : Body) (init : option Z) : Response :=
  {| status := match init with Some s => s | None => 200 end; body := data |}.

Definition error_body (message : string) : Body :=
  JsonBody (VObj [("error", VStr message)]).

Definition received_body : Body :=
  JsonBody (VObj [("received", VBool true)]).

(** The pieces of a template literal: text, [${v}] and
    [${JSON.stringify(v)}]. *)
Inductive TemplatePart : Type :=
| Lit (s : string)
| Subst (v : value)
| SubstJson (v : value).

(** One argument of a console call *)
Inductive LogArg : Type :=
| Str (s : string)
| Template (parts : list TemplatePart)
| Val (v : value)
| Err (e : thrown)
| Issues (i : SchemaIssues)
| JsonPretty (v : value).

Inductive Level : Type := LogLevel | WarnLevel | ErrorLevel.

(** What the handler does to the world, in order *)
Inductive Effect : Type :=
| Console (level : Level) (args : list LogArg)
| JsonParse (bodyText : string)
| CreateLocalBooking (input : Queries.NewLocalBooking)
| RefundStripePaymentIntent (paymentId : value)
| CreateAnalyticsEvent (event : Queries.AnalyticsEvent).

Record State : Type := {
  env : Env;
  trace : list Effect
}.

(** A computation runs from a state to a value or a thrown exception, and a
    state: what was done before a throw stays done. *)
Definition M (A : Type) : Type := State -> (thrown + A) * State.

Definition ret {A} (a : A) : M A := fun st => (inr a, st).

Definition throw {A} (e : thrown) : M A := fun st => (inl e, st).

Definition bind {A B} (m : M A) (k : A -> M B) : M B :=
  fun st =>
    match m st with
    | (inr a, st') => k a st'
    | (inl e, st') => (inl e, st')
    end.

(** [try { m } catch (e) { handler e }] *)
Definition tryCatch {A} (m : M A) (handler : thrown -> M A) : M A :=
  fun st =>
    match m st with
    | (inr a, st') => (inr a, st')
    | (inl e, st') => handler e st'
    end.

(** A synchronous computation that returns or throws *)
Definition lift {A} (r : thrown + A) : M A :=
  match r with
  | inr a => ret a
  | inl e => throw e
  end.

Definition record (e : Effect) (st : State) : State :=
  {| env := env st; trace := trace st ++ [e] |}.

Definition emit (e : Effect) : M unit := fun st => (inr tt, record e st).

(** A call of a collaborator that may change the environment: the call is
    recorded, then its outcome is the collaborator's. *)
Definition call {A} (e : Effect) (f : Env -> (thrown + A) * Env) : M A :=
  fun st =>
    let (r, env') := f (env st) in
    (r, {| env := env'; trace := trace st ++ [e] |}).

End Handler.

Arguments Body {C}.
Arguments Response {C}.
Arguments M {C} A.

Declare Scope handler_scope.
Delimit Scope handler_scope with handler.
Notation "x <- m ;; k" := (bind m (fun x => k))
  (at level 61, m at next level, right associativity) : handler_scope.
Notation "m ;; k" := (bind m (fun _ => k))
  (at level 61, right associativity) : handler_scope.

(** ** The route *)

Section Route.

Context {C : Collaborators}.

Import Js.

Local Open Scope handler_scope.

(** The evaluation of a template literal that interpolates values of the
    request: it throws when the conversion of one of them does.  (The ids
    [storeBooking] interpolates are a row id and a string.) *)
Definition interpolate (parts : list TemplatePart) : thrown + LogArg :=
  if existsb (fun part => match part with
                          | Subst v => toString_throws v
                          | Lit _ | SubstJson _ => false
                          end) parts
  then inl conversion_error
  else inr (Template parts).

Definition template (parts : list TemplatePart) : M LogArg := lift (interpolate parts).

Definition console_log (args : list LogArg) : M unit := emit (Console LogLevel args).
Definition console_warn (args : list LogArg) : M unit := emit (Console WarnLevel args).
Definition console_error (args : list LogArg) : M unit := emit (Console ErrorLevel args).

(** [metadata.paymentId ? Number(metadata.paymentId) : undefined] *)
Definition paymentId_number (paymentId : option string) : option float :=
  match paymentId with
  | Some s => if toBoolean (VStr s) then Some (Number_of_string s) else None
  | None => None
  end.

(** The object literal passed to [createLocalBooking] *)
Definition localBooking_input (event : value) (data : Calcom.CalcomBookingPayload)
    (attendee : Calcom.Attendee) : Queries.NewLocalBooking :=
  let start := Date_of_string (Calcom.startTime data) in
  {| Queries.calcomBookingId := Calcom.bookingId data;
     Queries.calcomUid := Calcom.uid data;
     Queries.title := Calcom.title data;
     Queries.description := Calcom.description data;
     Queries.startTime := start;
     Queries.duration := Calcom.length data;
     Queries.endTime :=
       newDate (add (getTime start) (mul (Some (Calcom.length data)) (Some 60000)));
     Queries.meetingUrl := Calcom.videoCallUrl (Calcom.metadata data);
     Queries.calcomEventTypeId := Calcom.eventTypeId data;
     Queries.paymentId := paymentId_number (Calcom.paymentId (Calcom.metadata data));
     Queries.organizer :=
       {| Queries.userId := Calcom.mentorUserId (Calcom.metadata data);
          Queries.organizer_email := Calcom.organizer_email (Calcom.organizer data);
          Queries.organizer_username := Calcom.organizer_username (Calcom.organizer data);
          Queries.organizer_name := Calcom.organizer_name (Calcom.organizer data) |};
     Queries.attendee :=
       {| Queries.name := Calcom.name attendee;
          Queries.email := Calcom.email attendee;
          Queries.phoneNumber := Calcom.phoneNumber attendee;
          Queries.timeZone := Calcom.timeZone attendee |};
     Queries.webhookPayload := event |}.

(** [const [attendee] = attendees], then the first read [attendee.name]: of
    an empty list the first element is [undefined] and the read throws. *)
Definition first_attendee (attendees : list Calcom.Attendee) : thrown + Calcom.Attendee :=
  match attendees with
  | attendee :: _ => inr attendee
  | [] => inl (TypeError "Cannot read properties of undefined (reading 'name')")
  end.

Definition storeBooking (event : value) : M Response :=
  console_log [Str "Processing Cal.com BOOKING_CREATED event..."] ;;
  tryCatch
    (match safeParse event with
     | inl issues =>
         console_warn [Str "❌ Invalid Cal.com booking payload:"; Issues issues] ;;
         ret (Response_json (error_body "Invalid booking payload") (Some 400))
     | inr data =>
         attendee <- lift (first_attendee (Calcom.attendees data)) ;;
         let input := localBooking_input event data attendee in
         booking <- call (CreateLocalBooking input) (createLocalBooking input) ;;
         console_log [Template [Lit "✅ Successfully stored booking ";
                                Subst (booking_id booking);
                                Lit " for Cal.com event ";
                                Subst (VStr (Calcom.uid data))]] ;;
         ret (Response_json (BookingBody booking) (Some 201))
     end)
    (fun error =>
       console_error [Str "❌ Failed to store booking for Cal.com event:";
                      Str (errorMessage error)] ;;
       console_error [Str "Raw payload:"; JsonPretty event] ;;
       ret (Response_json (error_body "Failed to process booking") (Some 500))).

(** The [AFTER_HOSTS_CAL_VIDEO_NO_SHOW] case.  [Some r] is [return r],
    [None] is [break]. *)
Definition noShow (payload : value) : M (option Response) :=
  metadata <- lift (getProp payload "metadata") ;;
  paymentId <- lift (getProp metadata "paymentId") ;;
  if negb (toBoolean paymentId) then
    console_error [Str "❌ Missing paymentId in AFTER_HOSTS_CAL_VIDEO_NO_SHOW event"] ;;
    ret (Some (Response_json (error_body "Missing paymentId") (Some 400)))
  else
    tryCatch
      (call (RefundStripePaymentIntent paymentId) (refundStripePaymentIntent paymentId) ;;
       ret None)
      (fun err =>
         console_error [Str "❌ Failed to process refund for paymentId:";
                        Val paymentId; Err err] ;;
         ret (Some (Response_json (error_body "Failed to process refund") (Some 500)))).

(** The log-only cases: two lines, then [break] *)
Definition logOnly (headline details : string) (triggerEvent payload : value)
    : M (option Response) :=
  line <- template [Lit headline; Subst triggerEvent] ;;
  console_log [line] ;;
  line <- template [Lit details; SubstJson payload] ;;
  console_log [line] ;;
  ret None.

(** The object literal passed to [createAnalyticsEvent] *)
Definition completedBooking (mentorUserId actorUserId : value) : Queries.AnalyticsEvent :=
  {| Queries.eventType := "COMPLETED_BOOKING";
     Queries.targetUserId := mentorUserId;
     Queries.actorUserId := nullish actorUserId VNull |}.

(** The [MEETING_ENDED] case *)
Definition meetingEnded (triggerEvent payload : value) : M (option Response) :=
  line <- template [Lit "✅ Meeting ended for event: "; Subst triggerEvent] ;;
  console_log [line] ;;
  line <- template [Lit "✅ Meeting details: "; SubstJson payload] ;;
  console_log [line] ;;
  metadata <- lift (getProp payload "metadata") ;;
  mentorUserId <- lift (getProp metadata "mentorUserId") ;;
  if toBoolean mentorUserId then
    actorUserId <- lift (getProp metadata "actorUserId") ;;
    let event := completedBooking mentorUserId actorUserId in
    call (CreateAnalyticsEvent event) (createAnalyticsEvent event) ;;
    ret None
  else ret None.

Definition unhandled (triggerEvent : value) : M (option Response) :=
  line <- template [Lit "ℹ️ Unhandled webhook event type: "; Subst triggerEvent] ;;
  console_log [line] ;;
  ret None.

(** The [switch (triggerEvent)]: cases compare with [===], so only a string
    can match one. *)
Definition dispatch (triggerEvent payload : value) : M (option Response) :=
  match triggerEvent with
  | VStr kind =>
      if (kind =? "BOOKING_CREATED")%string then
        response <- storeBooking payload ;; ret (Some response)
      else if (kind =? "AFTER_HOSTS_CAL_VIDEO_NO_SHOW")%string then
        noShow payload
      else if (kind =? "RECORDING_TRANSCRIPTION_GENERATED")%string then
        logOnly "✅ Transcription generated for event: " "✅ Transcription text: "
                triggerEvent payload
      else if (kind =? "RECORDING_READY")%string then
        logOnly "✅ Recording is ready for event: " "✅ Recording details: "
                triggerEvent payload
      else if (kind =? "MEETING_STARTED")%string then
        logOnly "✅ Meeting started for event: " "✅ Meeting details: "
                triggerEvent payload
      else if (kind =? "MEETING_ENDED")%string then
        meetingEnded triggerEvent payload
      else if (kind =? "BOOKING_CANCELED")%string then
        logOnly "✅ Booking canceled for event: " "✅ Booking details: "
                triggerEvent payload
      else unhandled triggerEvent
  | _ => unhandled triggerEvent
  end.

Definition signature_header : string := "x-cal-signature-256".

(** [req.headers.get('x-cal-signature-256') ?? ''] *)
Definition signature_of (req : Request) : string :=
  match headers_get req signature_header with
  | Some s => s
  | None => ""
  end.

Definition expectedSignature (bodyText : string) : string :=
  Buffer.hex (hmacSha256 CALCOM_WEBHOOK_SECRET bodyText).

(** The [try { event = JSON.parse(bodyText) } catch] of the handler: the
    event, or the response the catch returns. *)
Definition parseEvent (bodyText : string) : M (Response + value) :=
  tryCatch
    (event <- call (JsonParse bodyText) (fun e => (JSON_parse bodyText, e)) ;;
     ret (inr event))
    (fun err =>
       console_error [Str "❌ Failed to parse Cal.com webhook payload:"; Err err] ;;
       ret (inl (Response_json (error_body "Invalid payload") (Some 400)))).

(** The dispatch try block with its catch *)
Definition guardedDispatch (triggerEvent payload : value) : M (option Response) :=
  tryCatch
    (dispatch triggerEvent payload)
    (fun error =>
       line <- template [Lit "❌ Error processing webhook event ";
                         Subst triggerEvent; Lit ":"] ;;
       console_error [line; Str (errorMessage error)] ;;
       ret (Some (Response_json (error_body "Failed to process webhook") (Some 500)))).

(** After the dispatch block: the response some case returned, or the
    acknowledgement. *)
Definition finish (returned : option Response) : M Response :=
  match returned with
  | Some response => ret response
  | None => ret (Response_json received_body None)
  end.

(** The handler from the parsed event on *)
Definition processEvent (event : value) : M Response :=
  triggerEvent <- lift (getProp event "triggerEvent") ;;
  payload <- lift (getProp event "payload") ;;
  console_log [Str "Received Cal.com webhook event:";
               Val (VObj [("triggerEvent", triggerEvent); ("payload", payload)])] ;;
  line <- template [Lit "✅ Received Cal.com webhook event: "; Subst triggerEvent] ;;
  console_log [line] ;;
  returned <- guardedDispatch triggerEvent payload ;;
  finish returned.

Definition POST (req : Request) : M Response :=
  let signature := signature_of req in
  let bodyText := text req in
  same <- lift (Buffer.timingSafeEqual
                  (Buffer.from_utf8 (expectedSignature bodyText))
                  (Buffer.from_utf8 signature)) ;;
  if negb same then
    console_error [Str "❌ Webhook signature verification failed for Cal.com payload"] ;;
    ret (Response_json (error_body "Invalid signature") (Some 400))
  else
    parsed <- parseEvent bodyText ;;
    match parsed with
    | inl response => ret response
    | inr event => processEvent event
    end.

(** *** Reading a trace *)

Definition bookings_of (t : list Effect) : list Queries.NewLocalBooking :=
  flat_map (fun e => match e with CreateLocalBooking input => [input] | _ => [] end) t.

Definition refunds_of (t : list Effect) : list value :=
  flat_map (fun e => match e with RefundStripePaymentIntent p => [p] | _ => [] end) t.

Definition analytics_of (t : list Effect) : list Queries.AnalyticsEvent :=
  flat_map (fun e => match e with CreateAnalyticsEvent a => [a] | _ => [] end) t.

Definition parses_of (t : list Effect) : list string :=
  flat_map (fun e => match e with JsonParse b => [b] | _ => [] end) t.

(** The request carries the signature the handler computes *)
Definition authentic (req : Request) : Prop :=
  signature_of req = expectedSignature (text req).

(** *** The vocabulary of the properties *)

(** What [crypto.timingSafeEqual] throws on buffers of unequal length *)
Definition length_error : thrown :=
  RangeError "Input buffers must have the same byte length".

Definition invalid_signature_log : Effect :=
  Console ErrorLevel [Str "❌ Webhook signature verification failed for Cal.com payload"].

(** The first line the handler logs once the event is parsed: the label and
    the object that holds the kind and the payload *)
Definition received_object_log (triggerEvent payload : value) : Effect :=
  Console LogLevel
    [Str "Received Cal.com webhook event:";
     Val (VObj [("triggerEvent", triggerEvent); ("payload", payload)])].

(** The two lines the handler logs once the event is parsed *)
Definition received_logs (triggerEvent payload : value) : list Effect :=
  [Console LogLevel
     [Str "Received Cal.com webhook event:";
      Val (VObj [("triggerEvent", triggerEvent); ("payload", payload)])];
   Console LogLevel
     [Template [Lit "✅ Received Cal.com webhook event: "; Subst triggerEvent]]].

(** The state in which the dispatch starts: the body was parsed and the two
    lines were logged. *)
Definition received (req : Request) (triggerEvent payload : value) (st : State) : State :=
  {| env := env st;
     trace := trace st ++ JsonParse (text req) :: received_logs triggerEvent payload |}.

(** [req] is an authenticated delivery whose body parses to an event with
    this [triggerEvent] and this [payload], and the handler gets as far as
    the dispatch with them: the line that writes the kind to the log did
    not throw. *)
Definition delivers (req : Request) (triggerEvent payload : value) : Prop :=
  authentic req /\
  exists event,
    JSON_parse (text req) = inr event /\
    getProp event "triggerEvent" = inr triggerEvent /\
    getProp event "payload" = inr payload /\
    toString_throws triggerEvent = false.

(** Nothing was stored, refunded or tracked between the two states. *)
Definition untouched (st st' : State) : Prop :=
  env st' = env st /\
  bookings_of (trace st') = bookings_of (trace st) /\
  refunds_of (trace st') = refunds_of (trace st) /\
  analytics_of (trace st') = analytics_of (trace st).

(** The event kinds the switch names, and those among them it only logs *)
Definition known_kinds : list string :=
  ["BOOKING_CREATED"; "AFTER_HOSTS_CAL_VIDEO_NO_SHOW";
   "RECORDING_TRANSCRIPTION_GENERATED"; "RECORDING_READY"; "MEETING_STARTED";
   "MEETING_ENDED"; "BOOKING_CANCELED"].

Definition log_only_kinds : list string :=
  ["RECORDING_TRANSCRIPTION_GENERATED"; "RECORDING_READY"; "MEETING_STARTED";
   "BOOKING_CANCELED"].

Definition info_line (e : Effect) : Prop := exists args, e = Console LogLevel args.

(** The bodies of the error responses of the dispatch *)
Definition generic_failure : Response :=
  Response_json (error_body "Failed to process webhook") (Some 500).

Definition dispatch_failure_log (triggerEvent : value) (error : thrown) : Effect :=
  Console ErrorLevel
    [Template [Lit "❌ Error processing webhook event "; Subst triggerEvent; Lit ":"];
     Str (errorMessage error)].

(** The lines and calls of the cases that act *)
Definition missing_paymentId_log : Effect :=
  Console ErrorLevel [Str "❌ Missing paymentId in AFTER_HOSTS_CAL_VIDEO_NO_SHOW event"].

Definition refund_failure_log (paymentId : value) (err : thrown) : Effect :=
  Console ErrorLevel [Str "❌ Failed to process refund for paymentId:"; Val paymentId; Err err].

Definition meeting_ended_logs (triggerEvent payload : value) : list Effect :=
  [Console LogLevel [Template [Lit "✅ Meeting ended for event: "; Subst triggerEvent]];
   Console LogLevel [Template [Lit "✅ Meeting details: "; SubstJson payload]]].

Definition processing_log : Effect :=
  Console LogLevel [Str "Processing Cal.com BOOKING_CREATED event..."].

Definition invalid_payload_log (issues : SchemaIssues) : Effect :=
  Console WarnLevel [Str "❌ Invalid Cal.com booking payload:"; Issues issues].

Definition stored_log (booking : LocalBooking) (data : Calcom.CalcomBookingPayload) : Effect :=
  Console LogLevel
    [Template [Lit "✅ Successfully stored booking "; Subst (booking_id booking);
               Lit " for Cal.com event "; Subst (VStr (Calcom.uid data))]].

Definition store_failure_logs (event : value) (error : thrown) : list Effect :=
  [Console ErrorLevel
     [Str "❌ Failed to store booking for Cal.com event:"; Str (errorMessage error)];
   Console ErrorLevel [Str "Raw payload:"; JsonPretty event]].

End Route.

(** * A concrete set of collaborators

    A small world to run the route in: an in-memory store that can be taken
    down, a strict validator, and a JSON reader that knows the events below.
    The examples after the theorems run the route here. *)

Module Demo.

Import Js.

Record World : Type := {
  down : bool;
  rows : list Queries.NewLocalBooking;
  refunded : list value;
  events : list Queries.AnalyticsEvent
}.

Definition outage : thrown := ErrorObj "Error" "connection refused".

(** Not a MAC: 32 bytes that depend on the key and the text only through
    their lengths.  The route relies on nothing but the length. *)
Definition hmac (key data : string) : list Byte.byte :=
  repeat (byte_of_ascii (ascii_of_nat (String.length key + String.length data)))
         32.

(** The whole number a double holds, if it holds one *)
Definition Z_of_float (x : float) : option Z :=
  match Prim2SF x with
  | S754_zero _ => Some 0
  | S754_finite s m e =>
      let signed (z : Z) := if s then - z else z in
      if 0 <=? e then Some (signed (Z.pos m * 2 ^ e))
      else if Z.pos m mod 2 ^ (- e) =? 0 then Some (signed (Z.pos m / 2 ^ (- e)))
      else None
  | _ => None
  end.

Definition quote : string := String (ascii_of_nat 34) EmptyString.

(** [JSON.stringify] on the fragment the examples use: no escapes in
    strings, whole numbers only. *)
Fixpoint stringify (v : value) : option string :=
  match v with
  | VUndefined => None
  | VNull => Some "null"
  | VBool b => Some (if b then "true" else "false")
  | VNum x =>
      match Z_of_float x with
      | Some z => Some (DecimalString.NilZero.string_of_int (Z.to_int z))
      | None => None
      end
  | VStr s => Some (quote ++ s ++ quote)
  | VArr xs =>
      let fix items (xs : list value) : option string :=
        match xs with
        | [] => Some ""
        | x :: rest =>
            match stringify x, items rest with
            | Some a, Some b =>
                Some (a ++ (match rest with [] => "" | _ => "," end) ++ b)
            | _, _ => None
            end
        end in
      option_map (fun body => "[" ++ body ++ "]") (items xs)
  | VObj props =>
      let fix members (ps : list (string * value)) : option string :=
        match ps with
        | [] => Some ""
        | (k, x) :: rest =>
            match stringify x, members rest with
            | Some a, Some b =>
                Some (quote ++ k ++ quote ++ ":" ++ a
                      ++ (match rest with [] => "" | _ => "," end) ++ b)
            | _, _ => None
            end
        end in
      option_map (fun body => "{" ++ body ++ "}") (members props)
  end%string.

Definition attendee_value : value :=
  VObj [("name", VStr "Ada"); ("email", VStr "ada@example.org");
        ("timeZone", VStr "Europe/London")].

Definition booking_metadata : value :=
  VObj [("paymentId", VStr "42"); ("mentorUserId", VStr "mentor-7");
        ("videoCallUrl", VStr "https://video.example.org/r/1")].

Definition booking_payload_at (startTime : string) (minutes : float) : value :=
  VObj [("bookingId", VNum 101); ("uid", VStr "bk_1"); ("title", VStr "Intro call");
        ("attendees", VArr [attendee_value]);
        ("startTime", VStr startTime); ("length", VNum minutes);
        ("organizer", VObj [("id", VNum 7); ("email", VStr "grace@example.org");
                            ("username", VStr "grace"); ("name", VStr "Grace")]);
        ("eventTypeId", VNum 5); ("metadata", booking_metadata)].

Definition booking_payload : value := booking_payload_at "2025-01-01T10:00:00.000Z" 30.

(** The payload of [Demo.booking_created] as the demo validator reads it *)
Definition booking_attendee : Calcom.Attendee :=
  {| Calcom.name := "Ada"; Calcom.email := "ada@example.org";
     Calcom.phoneNumber := None; Calcom.timeZone := "Europe/London" |}.

Definition booking_data : Calcom.CalcomBookingPayload :=
  {| Calcom.bookingId := 101; Calcom.uid := "bk_1"; Calcom.title := "Intro call";
     Calcom.description := None; Calcom.attendees := [booking_attendee];
     Calcom.startTime := "2025-01-01T10:00:00.000Z"; Calcom.length := 30;
     Calcom.organizer :=
       {| Calcom.organizer_id := 7; Calcom.organizer_email := "grace@example.org";
          Calcom.organizer_username := "grace"; Calcom.organizer_name := "Grace" |};
     Calcom.eventTypeId := 5;
     Calcom.metadata :=
       {| Calcom.paymentId := Some "42"; Calcom.mentorUserId := Some "mentor-7";
          Calcom.actorUserId := None;
          Calcom.videoCallUrl := Some "https://video.example.org/r/1" |} |}.

Definition event_of (kind : string) (payload : value) : value :=
  VObj [("triggerEvent", VStr kind); ("payload", payload)].

Definition booking_created : value := event_of "BOOKING_CREATED" booking_payload.

(** one minute from the last instant a [Date] can hold *)
Definition booking_at_the_end_of_time : value :=
  event_of "BOOKING_CREATED" (booking_payload_at "+275760-09-13T00:00:00.000Z" 1).

(** a booking payload without attendees *)
Definition malformed_booking : value :=
  event_of "BOOKING_CREATED" (VObj [("uid", VStr "bk_2")]).

Definition no_show_paid : value :=
  event_of "AFTER_HOSTS_CAL_VIDEO_NO_SHOW"
           (VObj [("metadata", VObj [("paymentId", VStr "pi_9")])]).

Definition no_show_unpaid : value :=
  event_of "AFTER_HOSTS_CAL_VIDEO_NO_SHOW" (VObj [("metadata", VObj [])]).

Definition meeting_ended : value :=
  event_of "MEETING_ENDED"
           (VObj [("metadata", VObj [("mentorUserId", VStr "mentor-7");
                                     ("actorUserId", VStr "student-3")])]).

Definition meeting_ended_bare : value :=
  event_of "MEETING_ENDED" (VObj [("metadata", VObj [])]).

Definition meeting_ended_no_metadata : value :=
  event_of "MEETING_ENDED" (VObj []).

Definition recording_ready : value := event_of "RECORDING_READY" (VObj []).

Definition ping : value := event_of "PING" (VObj []).

Definition known_events : list value :=
  [booking_created; booking_at_the_end_of_time; malformed_booking; no_show_paid; no_show_unpaid; meeting_ended;
   meeting_ended_bare; meeting_ended_no_metadata; recording_ready; ping; VNull].

Definition text_of (v : value) : string :=
  match stringify v with
  | Some s => s
  | None => ""
  end.

(** Reads back the texts of [known_events]; any other text is a syntax
    error to this reader. *)
Definition parse (bodyText : string) : thrown + value :=
  match find (fun v => (text_of v =? bodyText)%string) known_events with
  | Some v => inr v
  | None => inl (ErrorObj "SyntaxError" "Unexpected token")
  end.

(** *** A strict validator *)

Definition string_at (k : string) (v : value) : option string :=
  match getProp v k with
  | inr (VStr s) => Some s
  | _ => None
  end.

Definition optional_string_at (k : string) (v : value) : option (option string) :=
  match getProp v k with
  | inr (VStr s) => Some (Some s)
  | inr VUndefined => Some None
  | _ => None
  end.

Definition integer_at (k : string) (v : value) : option Z :=
  match getProp v k with
  | inr (VNum x) => Z_of_float x
  | _ => None
  end.

Definition object_at (k : string) (v : value) : option value :=
  match getProp v k with
  | inr (VObj props) => Some (VObj props)
  | _ => None
  end.

Definition and_then {A B} (o : option A) (k : A -> option B) : option B :=
  match o with
  | Some a => k a
  | None => None
  end.

Definition attendee_of (v : value) : option Calcom.Attendee :=
  and_then (string_at "name" v) (fun name =>
  and_then (string_at "email" v) (fun email =>
  and_then (optional_string_at "phoneNumber" v) (fun phoneNumber =>
  and_then (string_at "timeZone" v) (fun timeZone =>
  Some {| Calcom.name := name; Calcom.email := email;
          Calcom.phoneNumber := phoneNumber; Calcom.timeZone := timeZone |})))).

Fixpoint all_of {A B} (f : A -> option B) (xs : list A) : option (list B) :=
  match xs with
  | [] => Some []
  | x :: rest =>
      and_then (f x) (fun y => and_then (all_of f rest) (fun ys => Some (y :: ys)))
  end.

(** at least one attendee, each well-formed *)
Definition attendees_at (k : string) (v : value) : option (list Calcom.Attendee) :=
  match getProp v k with
  | inr (VArr (x :: rest)) => all_of attendee_of (x :: rest)
  | _ => None
  end.

Definition organizer_of (v : value) : option Calcom.Organizer :=
  and_then (integer_at "id" v) (fun id =>
  and_then (string_at "email" v) (fun email =>
  and_then (string_at "username" v) (fun username =>
  and_then (string_at "name" v) (fun name =>
  Some {| Calcom.organizer_id := id; Calcom.organizer_email := email;
          Calcom.organizer_username := username; Calcom.organizer_name := name |})))).

Definition metadata_of (v : value) : option Calcom.Metadata :=
  and_then (optional_string_at "paymentId" v) (fun paymentId =>
  and_then (optional_string_at "mentorUserId" v) (fun mentorUserId =>
  and_then (optional_string_at "actorUserId" v) (fun actorUserId =>
  and_then (optional_string_at "videoCallUrl" v) (fun videoCallUrl =>
  Some {| Calcom.paymentId := paymentId; Calcom.mentorUserId := mentorUserId;
          Calcom.actorUserId := actorUserId; Calcom.videoCallUrl := videoCallUrl |})))).

Definition payload_of (v : value) : option Calcom.CalcomBookingPayload :=
  and_then (integer_at "bookingId" v) (fun bookingId =>
  and_then (string_at "uid" v) (fun uid =>
  and_then (string_at "title" v) (fun title =>
  and_then (optional_string_at "description" v) (fun description =>
  and_then (attendees_at "attendees" v) (fun attendees =>
  and_then (string_at "startTime" v) (fun startTime =>
  and_then (integer_at "length" v) (fun length =>
  and_then (and_then (object_at "organizer" v) organizer_of) (fun organizer =>
  and_then (integer_at "eventTypeId" v) (fun eventTypeId =>
  and_then (and_then (object_at "metadata" v) metadata_of) (fun metadata =>
  Some {| Calcom.bookingId := bookingId; Calcom.uid := uid; Calcom.title := title;
          Calcom.description := description; Calcom.attendees := attendees;
          Calcom.startTime := startTime; Calcom.length := length;
          Calcom.organizer := organizer; Calcom.eventTypeId := eventTypeId;
          Calcom.metadata := metadata |})))))))))).

Definition validate (v : value) : string + Calcom.CalcomBookingPayload :=
  match payload_of v with
  | Some data => inr data
  | None => inl "Invalid input"
  end.

(** A clock that knows three instants; any other text is an Invalid Date. *)
Definition instant (s : string) : Date :=
  if (s =? "1970-01-01T00:00:00.000Z")%string then Some 0
  else if (s =? "2025-01-01T10:00:00.000Z")%string then Some 1735725600000
  else if (s =? "+275760-09-13T00:00:00.000Z")%string then Some maxTime
  else None.

Definition to_number (s : string) : float :=
  if (s =? "42")%string then 42%float else PrimFloat.nan.

(** *** The store, the payment provider and the analytics sink

    Each one fails while the world is down and otherwise records what it was
    asked to do. *)

Definition store (input : Queries.NewLocalBooking) (w : World)
    : (thrown + (Z * Queries.NewLocalBooking)) * World :=
  if down w then (inl outage, w)
  else (inr (Z.of_nat (S (List.length (rows w))), input),
        {| down := down w; rows := rows w ++ [input];
           refunded := refunded w; events := events w |}).

Definition refund (paymentId : value) (w : World) : (thrown + unit) * World :=
  if down w then (inl outage, w)
  else (inr tt,
        {| down := down w; rows := rows w;
           refunded := refunded w ++ [paymentId]; events := events w |}).

Definition track (event : Queries.AnalyticsEvent) (w : World) : (thrown + unit) * World :=
  if down w then (inl outage, w)
  else (inr tt,
        {| down := down w; rows := rows w;
           refunded := refunded w; events := events w ++ [event] |}).

Definition row_id (row : Z * Queries.NewLocalBooking) : value :=
  VStr (DecimalString.NilZero.string_of_int (Z.to_int (fst row))).

#[export] Instance collaborators : Collaborators := {|
  Env := World;
  LocalBooking := Z * Queries.NewLocalBooking;
  SchemaIssues := string;
  CALCOM_WEBHOOK_SECRET := "whsec_demo";
  hmacSha256 := hmac;
  hmacSha256_length := fun key data => repeat_length _ 32;
  JSON_parse := parse;
  safeParse := validate;
  Date_of_string := instant;
  Number_of_string := to_number;
  createLocalBooking := store;
  booking_id := row_id;
  refundStripePaymentIntent := refund;
  createAnalyticsEvent := track
|}.

Definition up : World := {| down := false; rows := []; refunded := []; events := [] |}.
Definition broken : World := {| down := true; rows := []; refunded := []; events := [] |}.

Definition start (w : World) : State := {| env := w; trace := [] |}.

(** A delivery of [event], signed or with the given header value *)
Definition signed (event : value) : Request :=
  {| headers_get := fun name =>
       if (name =? signature_header)%string
       then Some (expectedSignature (text_of event)) else None;
     text := text_of event |}.

Definition unsigned (bodyText : string) : Request :=
  {| headers_get := fun _ => None; text := bodyText |}.

Definition with_signature (signature bodyText : string) : Request :=
  {| headers_get := fun name =>
       if (name =? signature_header)%string then Some signature else None;
     text := bodyText |}.

End Demo.

(** * A lenient world

    The demo world again, but with a validator that lets a booking with an
    empty list of attendees through. *)

Module Lab.

Import Js.

(** any array of well-formed attendees, the empty one too *)
Definition attendees_at (k : string) (v : value) : option (list Calcom.Attendee) :=
  match getProp v k with
  | inr (VArr xs) => Demo.all_of Demo.attendee_of xs
  | _ => None
  end.

Definition payload_of (v : value) : option Calcom.CalcomBookingPayload :=
  Demo.and_then (Demo.integer_at "bookingId" v) (fun bookingId =>
  Demo.and_then (Demo.string_at "uid" v) (fun uid =>
  Demo.and_then (Demo.string_at "title" v) (fun title =>
  Demo.and_then (Demo.optional_string_at "description" v) (fun description =>
  Demo.and_then (attendees_at "attendees" v) (fun attendees =>
  Demo.and_then (Demo.string_at "startTime" v) (fun startTime =>
  Demo.and_then (Demo.integer_at "length" v) (fun length =>
  Demo.and_then (Demo.and_then (Demo.object_at "organizer" v) Demo.organizer_of)
    (fun organizer =>
  Demo.and_then (Demo.integer_at "eventTypeId" v) (fun eventTypeId =>
  Demo.and_then (Demo.and_then (Demo.object_at "metadata" v) Demo.metadata_of)
    (fun metadata =>
  Some {| Calcom.bookingId := bookingId; Calcom.uid := uid; Calcom.title := title;
          Calcom.description := description; Calcom.attendees := attendees;
          Calcom.startTime := startTime; Calcom.length := length;
          Calcom.organizer := organizer; Calcom.eventTypeId := eventTypeId;
          Calcom.metadata := metadata |})))))))))).

Definition validate (v : value) : string + Calcom.CalcomBookingPayload :=
  match payload_of v with
  | Some data => inr data
  | None => inl "Invalid input"
  end.

Definition payload_without_attendees : value :=
  VObj [("bookingId", VNum 102); ("uid", VStr "bk_3"); ("title", VStr "Office hours");
        ("attendees", VArr []);
        ("startTime", VStr "2025-01-01T10:00:00.000Z"); ("length", VNum 30);
        ("organizer", VObj [("id", VNum 7); ("email", VStr "grace@example.org");
                            ("username", VStr "grace"); ("name", VStr "Grace")]);
        ("eventTypeId", VNum 5); ("metadata", VObj [])].

Definition booking_without_attendees : value :=
  Demo.event_of "BOOKING_CREATED" payload_without_attendees.

Definition data_without_attendees : Calcom.CalcomBookingPayload :=
  {| Calcom.bookingId := 102; Calcom.uid := "bk_3"; Calcom.title := "Office hours";
     Calcom.description := None; Calcom.attendees := [];
     Calcom.startTime := "2025-01-01T10:00:00.000Z"; Calcom.length := 30;
     Calcom.organizer :=
       {| Calcom.organizer_id := 7; Calcom.organizer_email := "grace@example.org";
          Calcom.organizer_username := "grace"; Calcom.organizer_name := "Grace" |};
     Calcom.eventTypeId := 5;
     Calcom.metadata :=
       {| Calcom.paymentId := None; Calcom.mentorUserId := None;
          Calcom.actorUserId := None; Calcom.videoCallUrl := None |} |}.

(** a meeting that ended, with a mentor and no actor in its metadata *)
Definition meeting_ended_without_actor : value :=
  Demo.event_of "MEETING_ENDED"
                (VObj [("metadata", VObj [("mentorUserId", VStr "mentor-7")])]).

(** an event whose kind is an object with a [toString] entry: no template
    literal can print it *)
Definition unprintable_kind : value := VObj [("toString", VNum 1)].

Definition event_of_unprintable_kind : value :=
  VObj [("triggerEvent", unprintable_kind)].

Definition known_events : list value :=
  [booking_without_attendees; meeting_ended_without_actor; event_of_unprintable_kind].

(** the demo reader, which also knows the events above *)
Definition parse (bodyText : string) : thrown + value :=
  match find (fun v => (Demo.text_of v =? bodyText)%string) known_events with
  | Some v => inr v
  | None => Demo.parse bodyText
  end.

#[export] Instance collaborators : Collaborators := {|
  Env := Demo.World;
  LocalBooking := Z * Queries.NewLocalBooking;
  SchemaIssues := string;
  CALCOM_WEBHOOK_SECRET := "whsec_demo";
  hmacSha256 := Demo.hmac;
  hmacSha256_length := fun key data => repeat_length _ 32;
  JSON_parse := parse;
  safeParse := validate;
  Date_of_string := Demo.instant;
  Number_of_string := Demo.to_number;
  createLocalBooking := Demo.store;
  booking_id := Demo.row_id;
  refundStripePaymentIntent := Demo.refund;
  createAnalyticsEvent := Demo.track
|}.

Definition start (w : Demo.World) : State := {| env := w; trace := [] |}.

End Lab.

(** * The paths through the route

    Every run of the dispatch, and of the handler, takes one of the paths
    below; each constructor is one way through the source, with the result
    and the state that way ends in.  The properties of all runs are read off
    these. *)

Section Paths.

Context {C : Collaborators}.

Import Js.

(** How many calls of the store, of the refund action and of the analytics
    query a trace holds *)
Definition calls_of (t : list Effect) : nat :=
  (List.length (bookings_of t) + List.length (refunds_of t)
   + List.length (analytics_of t))%nat.

(** A console line above info level *)
Definition alarm (e : Effect) : bool :=
  match e with
  | Console WarnLevel _ | Console ErrorLevel _ => true
  | _ => false
  end.

(** The messages of the error responses the source builds *)
Definition error_messages : list string :=
  ["Invalid signature"; "Invalid payload"; "Invalid booking payload";
   "Failed to process booking"; "Missing paymentId"; "Failed to process refund";
   "Failed to process webhook"].

Inductive DispatchPath (triggerEvent payload : value) (st : State)
  : (thrown + option Response) * State -> Prop :=
| booking_invalid (issues : SchemaIssues) :
    triggerEvent = VStr "BOOKING_CREATED" ->
    safeParse payload = inl issues ->
    DispatchPath triggerEvent payload st
      (inr (Some {| status := 400; body := error_body "Invalid booking payload" |}),
       {| env := env st;
          trace := trace st ++ [processing_log; invalid_payload_log issues] |})
| booking_without_attendee (data : Calcom.CalcomBookingPayload) :
    triggerEvent = VStr "BOOKING_CREATED" ->
    safeParse payload = inr data ->
    Calcom.attendees data = [] ->
    DispatchPath triggerEvent payload st
      (inr (Some {| status := 500; body := error_body "Failed to process booking" |}),
       {| env := env st;
          trace := trace st ++
                   processing_log ::
                   store_failure_logs payload
                     (TypeError "Cannot read properties of undefined (reading 'name')") |})
| booking_stored (data : Calcom.CalcomBookingPayload) (attendee : Calcom.Attendee)
    (others : list Calcom.Attendee) (booking : LocalBooking) (env' : Env) :
    triggerEvent = VStr "BOOKING_CREATED" ->
    safeParse payload = inr data ->
    Calcom.attendees data = attendee :: others ->
    createLocalBooking (localBooking_input payload data attendee) (env st)
      = (inr booking, env') ->
    DispatchPath triggerEvent payload st
      (inr (Some {| status := 201; body := BookingBody booking |}),
       {| env := env';
          trace := trace st ++
                   [processing_log;
                    CreateLocalBooking (localBooking_input payload data attendee);
                    stored_log booking data] |})
| booking_not_stored (data : Calcom.CalcomBookingPayload) (attendee : Calcom.Attendee)
    (others : list Calcom.Attendee) (error : thrown) (env' : Env) :
    triggerEvent = VStr "BOOKING_CREATED" ->
    safeParse payload = inr data ->
    Calcom.attendees data = attendee :: others ->
    createLocalBooking (localBooking_input payload data attendee) (env st)
      = (inl error, env') ->
    DispatchPath triggerEvent payload st
      (inr (Some {| status := 500; body := error_body "Failed to process booking" |}),
       {| env := env';
          trace := trace st ++
                   [processing_log;
                    CreateLocalBooking (localBooking_input payload data attendee)]
                   ++ store_failure_logs payload error |})
| no_show_unreadable (error : thrown) :
    triggerEvent = VStr "AFTER_HOSTS_CAL_VIDEO_NO_SHOW" ->
    (getProp payload "metadata" = inl error \/
     exists metadata,
       getProp payload "metadata" = inr metadata /\
       getProp metadata "paymentId" = inl error) ->
    DispatchPath triggerEvent payload st (inl error, st)
| no_show_without_payment (metadata paymentId : value) :
    triggerEvent = VStr "AFTER_HOSTS_CAL_VIDEO_NO_SHOW" ->
    getProp payload "metadata" = inr metadata ->
    getProp metadata "paymentId" = inr paymentId ->
    toBoolean paymentId = false ->
    DispatchPath triggerEvent payload st
      (inr (Some {| status := 400; body := error_body "Missing paymentId" |}),
       record missing_paymentId_log st)
| no_show_refunded (metadata paymentId : value) (env' : Env) :
    triggerEvent = VStr "AFTER_HOSTS_CAL_VIDEO_NO_SHOW" ->
    getProp payload "metadata" = inr metadata ->
    getProp metadata "paymentId" = inr paymentId ->
    toBoolean paymentId = true ->
    refundStripePaymentIntent paymentId (env st) = (inr tt, env') ->
    DispatchPath triggerEvent payload st
      (inr None,
       {| env := env'; trace := trace st ++ [RefundStripePaymentIntent paymentId] |})
| no_show_not_refunded (metadata paymentId : value) (err : thrown) (env' : Env) :
    triggerEvent = VStr "AFTER_HOSTS_CAL_VIDEO_NO_SHOW" ->
    getProp payload "metadata" = inr metadata ->
    getProp metadata "paymentId" = inr paymentId ->
    toBoolean paymentId = true ->
    refundStripePaymentIntent paymentId (env st) = (inl err, env') ->
    DispatchPath triggerEvent payload st
      (inr (Some {| status := 500; body := error_body "Failed to process refund" |}),
       {| env := env';
          trace := trace st ++
                   [RefundStripePaymentIntent paymentId;
                    refund_failure_log paymentId err] |})
| meeting_unreadable (error : thrown) :
    triggerEvent = VStr "MEETING_ENDED" ->
    (getProp payload "metadata" = inl error \/
     exists metadata,
       getProp payload "metadata" = inr metadata /\
       getProp metadata "mentorUserId" = inl error) ->
    DispatchPath triggerEvent payload st
      (inl error,
       {| env := env st; trace := trace st ++ meeting_ended_logs triggerEvent payload |})
| meeting_without_mentor (metadata mentorUserId : value) :
    triggerEvent = VStr "MEETING_ENDED" ->
    getProp payload "metadata" = inr metadata ->
    getProp metadata "mentorUserId" = inr mentorUserId ->
    toBoolean mentorUserId = false ->
    DispatchPath triggerEvent payload st
      (inr None,
       {| env := env st; trace := trace st ++ meeting_ended_logs triggerEvent payload |})
| meeting_tracked (metadata mentorUserId actorUserId : value)
    (outcome : thrown + unit) (env' : Env) :
    triggerEvent = VStr "MEETING_ENDED" ->
    getProp payload "metadata" = inr metadata ->
    getProp metadata "mentorUserId" = inr mentorUserId ->
    getProp metadata "actorUserId" = inr actorUserId ->
    toBoolean mentorUserId = true ->
    createAnalyticsEvent (completedBooking mentorUserId actorUserId) (env st)
      = (outcome, env') ->
    DispatchPath triggerEvent payload st
      (match outcome with inr _ => inr None | inl err => inl err end,
       {| env := env';
          trace := trace st ++ meeting_ended_logs triggerEvent payload ++
                   [CreateAnalyticsEvent (completedBooking mentorUserId actorUserId)] |})
| only_logged (lines : list Effect) :
    In triggerEvent (map VStr log_only_kinds) \/ ~ In triggerEvent (map VStr known_kinds) ->
    Forall info_line lines ->
    DispatchPath triggerEvent payload st
      (inr None, {| env := env st; trace := trace st ++ lines |}).

Inductive PostPath (req : Request) (st : State) : (thrown + Response) * State -> Prop :=
| signature_of_wrong_length :
    List.length (Buffer.from_utf8 (signature_of req)) <> 64%nat ->
    PostPath req st (inl length_error, st)
| signature_wrong :
    List.length (Buffer.from_utf8 (signature_of req)) = 64%nat ->
    signature_of req <> expectedSignature (text req) ->
    PostPath req st
      (inr {| status := 400; body := error_body "Invalid signature" |},
       record invalid_signature_log st)
| body_unparsable (err : thrown) :
    authentic req ->
    JSON_parse (text req) = inl err ->
    PostPath req st
      (inr {| status := 400; body := error_body "Invalid payload" |},
       {| env := env st;
          trace := trace st ++
                   [JsonParse (text req);
                    Console ErrorLevel
                      [Str "❌ Failed to parse Cal.com webhook payload:"; Err err]] |})
| event_unreadable (event : value) (error : thrown) :
    authentic req ->
    JSON_parse (text req) = inr event ->
    getProp event "triggerEvent" = inl error ->
    PostPath req st (inl error, record (JsonParse (text req)) st)
| kind_unprintable (event triggerEvent payload : value) :
    authentic req ->
    JSON_parse (text req) = inr event ->
    getProp event "triggerEvent" = inr triggerEvent ->
    getProp event "payload" = inr payload ->
    toString_throws triggerEvent = true ->
    PostPath req st
      (inl conversion_error,
       {| env := env st;
          trace := trace st ++ [JsonParse (text req); received_object_log triggerEvent payload] |})
| dispatch_returned (triggerEvent payload : value) (returned : option Response)
    (st2 : State) :
    delivers req triggerEvent payload ->
    DispatchPath triggerEvent payload (received req triggerEvent payload st)
                 (inr returned, st2) ->
    PostPath req st
      (inr (match returned with
            | Some response => response
            | None => {| status := 200; body := received_body |}
            end),
       st2)
| dispatch_threw (triggerEvent payload : value) (error : thrown) (st2 : State) :
    delivers req triggerEvent payload ->
    DispatchPath triggerEvent payload (received req triggerEvent payload st)
                 (inl error, st2) ->
    PostPath req st
      (inr {| status := 500; body := error_body "Failed to process webhook" |},
       record (dispatch_failure_log triggerEvent error) st2).

End Paths.

(** * Properties *)

(** Unfolds the monad of the handler, leaving the calls of the collaborators. *)
Ltac run :=
  cbv beta iota zeta delta
    [bind ret lift throw tryCatch emit call record console_log console_warn
     console_error negb template interpolate existsb orb];
  cbn [env trace Js.toString_throws].

(** ** Buffers *)

Module BufferFacts.

Import Buffer.

Lemma bytes_eqb_refl (a : list Byte.byte) : bytes_eqb a a = true.
Proof.
  induction a as [|x a IH]; simpl; [reflexivity|].
  rewrite IH, andb_true_r. apply Byte.byte_dec_lb. reflexivity.
Qed.

Lemma bytes_eqb_eq (a b : list Byte.byte) : bytes_eqb a b = true -> a = b.
Proof.
  revert b; induction a as [|x a IH]; intros [|y b]; simpl; try discriminate; auto.
  intros H. apply andb_true_iff in H as [Hxy Hab].
  apply Byte.byte_dec_bl in Hxy. f_equal; auto.
Qed.

(** The closed form of the encoding of a character, bit by bit *)
Lemma utf8_char_bits (b0 b1 b2 b3 b4 b5 b6 b7 : bool) :
  utf8_char (Ascii b0 b1 b2 b3 b4 b5 b6 b7) =
  if b7 then
    [byte_of_ascii (Ascii b6 true false false false false true true);
     byte_of_ascii (Ascii b0 b1 b2 b3 b4 b5 false true)]
  else [byte_of_ascii (Ascii b0 b1 b2 b3 b4 b5 b6 false)].
Proof.
  destruct b0, b1, b2, b3, b4, b5, b6, b7; reflexivity.
Qed.

Lemma byte_of_ascii_inj (a b : ascii) : byte_of_ascii a = byte_of_ascii b -> a = b.
Proof.
  intros H. rewrite <- (ascii_of_byte_of_ascii a), <- (ascii_of_byte_of_ascii b).
  now rewrite H.
Qed.

Lemma cons_eq_inv {A} (x y : A) (l l' : list A) : x :: l = y :: l' -> x = y /\ l = l'.
Proof. intros H; injection H; auto. Qed.

(** UTF-8 is prefix-free: equal encodings come from equal strings. *)
Lemma from_utf8_inj (s t : string) : from_utf8 s = from_utf8 t -> s = t.
Proof.
  revert t; induction s as [|c s IH]; intros [|d t].
  - reflexivity.
  - destruct d as [d0 d1 d2 d3 d4 d5 d6 d7]. cbn [from_utf8]. rewrite utf8_char_bits.
    destruct d7; discriminate.
  - destruct c as [c0 c1 c2 c3 c4 c5 c6 c7]. cbn [from_utf8]. rewrite utf8_char_bits.
    destruct c7; discriminate.
  - destruct c as [c0 c1 c2 c3 c4 c5 c6 c7], d as [d0 d1 d2 d3 d4 d5 d6 d7].
    cbn [from_utf8]. rewrite !utf8_char_bits.
    destruct c7, d7; cbn [app]; intros H.
    all: repeat match goal with
           | E : _ :: _ = _ :: _ |- _ => apply cons_eq_inv in E; destruct E
           | E : byte_of_ascii _ = byte_of_ascii _ |- _ => apply byte_of_ascii_inj in E
           end.
    all: try congruence.
    all: assert (s = t) by (apply IH; assumption); congruence.
Qed.

Lemma timingSafeEqual_same (a : list Byte.byte) : timingSafeEqual a a = inr true.
Proof.
  unfold timingSafeEqual. now rewrite Nat.eqb_refl, bytes_eqb_refl.
Qed.

Lemma timingSafeEqual_length (a b : list Byte.byte) :
  List.length a <> List.length b ->
  timingSafeEqual a b = inl (Js.RangeError "Input buffers must have the same byte length").
Proof.
  intros H. unfold timingSafeEqual.
  destruct (Nat.eqb_spec (List.length a) (List.length b)); [contradiction|reflexivity].
Qed.

Lemma timingSafeEqual_differ (a b : list Byte.byte) :
  List.length a = List.length b -> a <> b -> timingSafeEqual a b = inr false.
Proof.
  intros Hl Hne. unfold timingSafeEqual. rewrite Hl, Nat.eqb_refl.
  destruct (bytes_eqb a b) eqn:E; [|reflexivity].
  apply bytes_eqb_eq in E. contradiction.
Qed.

Lemma utf8_hexdigit (d : nat) : List.length (utf8_char (hexdigit d)) = 1%nat.
Proof.
  do 17 (destruct d as [|d]; [reflexivity|]). reflexivity.
Qed.

(** A hex digest is plain ASCII: two bytes of UTF-8 per byte of digest. *)
Lemma from_utf8_hex_length (bs : list Byte.byte) :
  List.length (from_utf8 (hex bs)) = (2 * List.length bs)%nat.
Proof.
  induction bs as [|b bs IH]; [reflexivity|].
  cbn [hex from_utf8 List.length]. rewrite !length_app, !utf8_hexdigit, IH. lia.
Qed.

End BufferFacts.

(** ** The signature check *)

Section SignatureFacts.

Context {C : Collaborators}.

Import Js.

(** The expected signature is 64 bytes of UTF-8. *)
Lemma expectedSignature_bytes (bodyText : string) :
  List.length (Buffer.from_utf8 (expectedSignature bodyText)) = 64%nat.
Proof.
  unfold expectedSignature.
  now rewrite BufferFacts.from_utf8_hex_length, hmacSha256_length.
Qed.

(** Whatever the header holds, a signature that is not 64 bytes long makes
    the comparison throw, and the handler with it. *)
Lemma POST_length_mismatch (req : Request) (st : State) :
  List.length (Buffer.from_utf8 (signature_of req)) <> 64%nat ->
  POST req st = (inl length_error, st).
Proof.
  intros Hlen. unfold POST, bind.
  rewrite BufferFacts.timingSafeEqual_length; [reflexivity|].
  now rewrite expectedSignature_bytes; intros E; apply Hlen.
Qed.

(** A signature of the right length that is not the expected one is turned
    down with 400; nothing but the console line happens. *)
Lemma POST_signature_mismatch (req : Request) (st : State) :
  List.length (Buffer.from_utf8 (signature_of req)) = 64%nat ->
  signature_of req <> expectedSignature (text req) ->
  POST req st =
  (inr (Response_json (error_body "Invalid signature") (Some 400)),
   record invalid_signature_log st).
Proof.
  intros Hlen Hne. unfold POST, bind.
  rewrite BufferFacts.timingSafeEqual_differ; [reflexivity| |].
  - now rewrite expectedSignature_bytes.
  - intros E. apply BufferFacts.from_utf8_inj in E. now apply Hne.
Qed.

(** With the expected signature the handler goes on to parse the body. *)
Lemma POST_authentic (req : Request) (st : State) :
  authentic req ->
  POST req st =
  bind (parseEvent (text req))
       (fun parsed =>
          match parsed with
          | inl response => ret response
          | inr event => processEvent event
          end) st.
Proof.
  intros Hauth. unfold POST. rewrite Hauth.
  unfold bind at 1. now rewrite BufferFacts.timingSafeEqual_same.
Qed.

(** Whatever the wrong signature is, the handler neither parses the body nor
    touches the world: it answers 400 when the signature has the length of
    the digest, and throws when it has not. *)
Lemma POST_signature_mismatch_cases (req : Request) (st : State) :
  signature_of req <> expectedSignature (text req) ->
  parses_of (trace (snd (POST req st))) = parses_of (trace st) /\
  untouched st (snd (POST req st)) /\
  (List.length (Buffer.from_utf8 (signature_of req)) = 64%nat ->
   fst (POST req st) = inr {| status := 400; body := error_body "Invalid signature" |}) /\
  (List.length (Buffer.from_utf8 (signature_of req)) <> 64%nat ->
   fst (POST req st) = inl length_error).
Proof.
  intros Hne.
  destruct (Nat.eq_dec (List.length (Buffer.from_utf8 (signature_of req))) 64) as [Hlen | Hlen].
  - rewrite (POST_signature_mismatch req st Hlen Hne). cbn [fst snd record trace env].
    unfold untouched, parses_of, bookings_of, refunds_of, analytics_of, invalid_signature_log.
    cbn [env trace record]. rewrite !flat_map_app. cbn [flat_map app]. rewrite !app_nil_r.
    split; [reflexivity|]. split; [now repeat split|]. split; [reflexivity|].
    intros H; contradiction.
  - rewrite (POST_length_mismatch req st Hlen). cbn [fst snd].
    split; [reflexivity|]. split; [now repeat split|]. split; [|reflexivity].
    intros H; contradiction.
Qed.

(** The JSON text [null] parses, but [null] is no event: the first property
    read throws, outside every try block. *)
Lemma POST_null_event_throws (req : Request) (st : State) :
  authentic req ->
  JSON_parse (text req) = inr VNull ->
  POST req st =
  (inl (TypeError "Cannot read properties of null (reading 'triggerEvent')"),
   record (JsonParse (text req)) st).
Proof.
  intros Hauth Hparse. rewrite (POST_authentic req st Hauth).
  unfold parseEvent, processEvent. run. now rewrite Hparse.
Qed.

End SignatureFacts.

(** ** From the parsed event to the dispatch *)

Section DispatchFacts.

Context {C : Collaborators}.

Import Js.

Lemma POST_delivers (req : Request) (triggerEvent payload : value) (st : State) :
  delivers req triggerEvent payload ->
  POST req st =
  bind (guardedDispatch triggerEvent payload) finish (received req triggerEvent payload st).
Proof.
  intros [Hauth (event & Hparse & Hkind & Hpayload & Hprint)].
  rewrite (POST_authentic req st Hauth).
  unfold parseEvent, processEvent. run. rewrite Hparse; run. rewrite Hkind; run.
  rewrite Hpayload; run. rewrite Hprint; run.
  unfold received, received_logs. cbn [app]. rewrite <- !app_assoc. reflexivity.
Qed.

(** A delivery that reaches the dispatch has a kind that can be written to
    the log. *)
Lemma delivers_printable (req : Request) (triggerEvent payload : value) :
  delivers req triggerEvent payload -> toString_throws triggerEvent = false.
Proof. now intros [_ (event & _ & _ & _ & Hprint)]. Qed.

(** *** Reading the trace of a longer run *)

Lemma bookings_of_app (t u : list Effect) :
  bookings_of (t ++ u) = (bookings_of t ++ bookings_of u)%list.
Proof. apply flat_map_app. Qed.

Lemma refunds_of_app (t u : list Effect) :
  refunds_of (t ++ u) = (refunds_of t ++ refunds_of u)%list.
Proof. apply flat_map_app. Qed.

Lemma analytics_of_app (t u : list Effect) :
  analytics_of (t ++ u) = (analytics_of t ++ analytics_of u)%list.
Proof. apply flat_map_app. Qed.

Lemma info_lines_silent (lines : list Effect) :
  Forall info_line lines ->
  bookings_of lines = [] /\ refunds_of lines = [] /\ analytics_of lines = [].
Proof.
  induction 1 as [|e lines [args ->] _ (Hb & Hr & Ha)]; [now repeat split|].
  repeat split; cbn; assumption.
Qed.

(** A run that only parsed the body and logged at info level left the world
    as it was. *)
Lemma info_lines_untouched (st : State) (bodyText : string) (lines : list Effect) :
  Forall info_line lines ->
  untouched st {| env := env st; trace := trace st ++ JsonParse bodyText :: lines |}.
Proof.
  intros H. destruct (info_lines_silent lines H) as (Hb & Hr & Ha).
  unfold untouched. cbn [env trace].
  rewrite bookings_of_app, refunds_of_app, analytics_of_app.
  change (bookings_of (JsonParse bodyText :: lines)) with (bookings_of lines).
  change (refunds_of (JsonParse bodyText :: lines)) with (refunds_of lines).
  change (analytics_of (JsonParse bodyText :: lines)) with (analytics_of lines).
  rewrite Hb, Hr, Ha, !app_nil_r. now repeat split.
Qed.

(** *** The cases that only log *)

Lemma logOnly_run (headline details : string) (triggerEvent payload : value) (st : State) :
  toString_throws triggerEvent = false ->
  logOnly headline details triggerEvent payload st =
  (inr None,
   {| env := env st;
      trace := trace st ++
               [Console LogLevel [Template [Lit headline; Subst triggerEvent]];
                Console LogLevel [Template [Lit details; SubstJson payload]]] |}).
Proof.
  intros Hprint. unfold logOnly. run. rewrite Hprint; run. now rewrite <- app_assoc.
Qed.

Lemma unhandled_run (triggerEvent : value) (st : State) :
  toString_throws triggerEvent = false ->
  unhandled triggerEvent st =
  (inr None,
   {| env := env st;
      trace := trace st ++
               [Console LogLevel
                  [Template [Lit "ℹ️ Unhandled webhook event type: "; Subst triggerEvent]]] |}).
Proof. intros Hprint. unfold unhandled. run. now rewrite Hprint. Qed.

(** The dispatch of a kind that is only logged, or of a kind the switch does
    not name: it breaks out of the switch having logged at info level. *)
Lemma dispatch_quiet (triggerEvent payload : value) (st : State) :
  toString_throws triggerEvent = false ->
  In triggerEvent (map VStr log_only_kinds) \/ ~ In triggerEvent (map VStr known_kinds) ->
  exists lines,
    Forall info_line lines /\
    dispatch triggerEvent payload st =
    (inr None, {| env := env st; trace := trace st ++ lines |}).
Proof.
  intros Hprint [Hin | Hout].
  - cbn in Hin.
    destruct Hin as [<- | [<- | [<- | [<- | []]]]]; cbn [dispatch String.eqb Ascii.eqb Bool.eqb];
      rewrite logOnly_run by reflexivity; eexists; (split; [|reflexivity]);
      repeat constructor; eexists; reflexivity.
  - assert (Hun : dispatch triggerEvent payload st = unhandled triggerEvent st).
    { destruct triggerEvent as [| |b|x|kind|xs|props]; try reflexivity.
      unfold dispatch.
      repeat match goal with
             | |- context [(kind =? ?k)%string] =>
                 destruct (String.eqb_spec kind k) as [->|_];
                 [exfalso; apply Hout; cbn; tauto|]
             end.
      reflexivity. }
    rewrite Hun, (unhandled_run _ _ Hprint). eexists; split; [|reflexivity].
    repeat constructor; eexists; reflexivity.
Qed.

End DispatchFacts.

(** ** The signature step, the parsing step and the quiet kinds *)

Section IntakeClaims.

Context {C : Collaborators}.

Import Js.

(** C9.  A request whose signature header value is not 64 bytes long in
    UTF-8 (the length of the hex digest), and in particular a request without
    the header, whose signature defaults to the empty string, makes
    [crypto.timingSafeEqual] throw on buffers of unequal length.  Nothing
    catches it: the handler throws that [RangeError], answers nothing (so not
    the 400 of an invalid signature either) and has done nothing. *)
Theorem POST_throws_on_signature_length (req : Request) (st : State) :
  headers_get req signature_header = None \/
  List.length (Buffer.from_utf8 (signature_of req)) <> 64%nat ->
  Buffer.timingSafeEqual (Buffer.from_utf8 (expectedSignature (text req)))
                         (Buffer.from_utf8 (signature_of req)) = inl length_error /\
  POST req st = (inl length_error, st) /\
  forall response st', POST req st <> (inr response, st').
Proof.
  intros H.
  assert (Hlen : List.length (Buffer.from_utf8 (signature_of req)) <> 64%nat).
  { destruct H as [Hnone | Hlen]; [|exact Hlen].
    unfold signature_of. rewrite Hnone. cbn. discriminate. }
  split; [|split].
  - apply BufferFacts.timingSafeEqual_length. now rewrite expectedSignature_bytes; auto.
  - now apply POST_length_mismatch.
  - intros response st'. rewrite (POST_length_mismatch req st Hlen). discriminate.
Qed.

(** C1, at a request without the signature header.  The signature the
    handler compares is then the empty string, which is not the computed
    digest; the handler does not answer 400 but throws the [RangeError] of the
    comparison. *)
Theorem POST_missing_signature_is_not_turned_down (req : Request) (st : State) :
  headers_get req signature_header = None ->
  signature_of req <> expectedSignature (text req) /\
  POST req st = (inl length_error, st).
Proof.
  intros Hnone.
  assert (Hsig : signature_of req = "") by (unfold signature_of; now rewrite Hnone).
  split.
  - intros E. pose proof (expectedSignature_bytes (text req)) as Hlen.
    rewrite <- E, Hsig in Hlen. discriminate Hlen.
  - apply POST_length_mismatch. rewrite Hsig. cbn. discriminate.
Qed.

(** C4.  A request with the expected signature whose body [JSON.parse]
    rejects is answered 400 with the body [{error: 'Invalid payload'}]; the
    handler has parsed, logged the failure and done nothing else: no dispatch,
    and the world is as it was. *)
Theorem POST_unparsable_body (req : Request) (err : thrown) (st : State) :
  authentic req ->
  JSON_parse (text req) = inl err ->
  exists st',
    POST req st = (inr {| status := 400; body := error_body "Invalid payload" |}, st') /\
    trace st' =
      (trace st ++
       [JsonParse (text req);
        Console ErrorLevel [Str "❌ Failed to parse Cal.com webhook payload:"; Err err]])%list /\
    untouched st st'.
Proof.
  intros Hauth Hparse. rewrite (POST_authentic req st Hauth).
  unfold parseEvent.
  cbv beta iota zeta delta
    [bind ret lift throw tryCatch emit call record console_error env trace].
  rewrite Hparse. eexists. split; [reflexivity|]. cbn [trace env]. split.
  - now rewrite <- app_assoc.
  - unfold untouched. cbn [env trace].
    rewrite !bookings_of_app, !refunds_of_app, !analytics_of_app. cbn.
    now rewrite !app_nil_r.
Qed.

(** C7.  An authenticated, parsed event whose kind is one of transcription
    generated, recording ready, meeting started and booking canceled, or is
    none of the kinds the switch names, is acknowledged with 200 and
    [{received: true}]; the handler stored, refunded and tracked nothing, and
    all it logged it logged at info level: an unknown kind is no error.  The
    kind is one the handler can write into its log lines, as [delivers]
    says: every string is, and so is every value but an object with a
    [toString] entry or an array that holds one, on which the handler throws
    before the dispatch. *)
Theorem POST_acknowledges_quiet_kinds
    (req : Request) (triggerEvent payload : value) (st : State) :
  delivers req triggerEvent payload ->
  In triggerEvent (map VStr log_only_kinds) \/ ~ In triggerEvent (map VStr known_kinds) ->
  exists st',
    POST req st = (inr {| status := 200; body := received_body |}, st') /\
    untouched st st' /\
    exists lines,
      trace st' = (trace st ++ JsonParse (text req) :: lines)%list /\
      Forall info_line lines.
Proof.
  intros Hdel Hkind. rewrite (POST_delivers req triggerEvent payload st Hdel).
  destruct (dispatch_quiet triggerEvent payload (received req triggerEvent payload st)
              (delivers_printable _ _ _ Hdel) Hkind)
    as (lines & Hlines & Hrun).
  unfold bind, guardedDispatch, tryCatch. rewrite Hrun. cbn [finish ret].
  assert (Hall : Forall info_line (received_logs triggerEvent payload ++ lines)).
  { apply Forall_app. split; [|exact Hlines].
    repeat constructor; eexists; reflexivity. }
  eexists. split; [reflexivity|]. cbn [env trace received]. split.
  - replace ((trace st ++ JsonParse (text req) :: received_logs triggerEvent payload) ++ lines)%list
      with (trace st ++ JsonParse (text req) :: (received_logs triggerEvent payload ++ lines))%list
      by (now rewrite <- app_assoc).
    now apply info_lines_untouched.
  - exists (received_logs triggerEvent payload ++ lines)%list. split; [|exact Hall].
    now rewrite <- app_assoc.
Qed.

End IntakeClaims.

(** ** The cases that act *)

Section BranchFacts.

Context {C : Collaborators}.

Import Js.

(** *** No-show *)

Lemma noShow_missing (payload metadata paymentId : value) (st : State) :
  getProp payload "metadata" = inr metadata ->
  getProp metadata "paymentId" = inr paymentId ->
  toBoolean paymentId = false ->
  noShow payload st =
  (inr (Some {| status := 400; body := error_body "Missing paymentId" |}),
   record missing_paymentId_log st).
Proof.
  intros Hm Hp Hfalsy. unfold noShow. run.
  rewrite Hm; run. rewrite Hp; run. now rewrite Hfalsy.
Qed.

Lemma noShow_refunded (payload metadata paymentId : value) (st : State) (env' : Env) :
  getProp payload "metadata" = inr metadata ->
  getProp metadata "paymentId" = inr paymentId ->
  toBoolean paymentId = true ->
  refundStripePaymentIntent paymentId (env st) = (inr tt, env') ->
  noShow payload st =
  (inr None,
   {| env := env'; trace := trace st ++ [RefundStripePaymentIntent paymentId] |}).
Proof.
  intros Hm Hp Htruthy Hrefund. unfold noShow. run.
  rewrite Hm; run. rewrite Hp; run. rewrite Htruthy; run. now rewrite Hrefund.
Qed.

Lemma noShow_refund_failed (payload metadata paymentId : value) (st : State)
    (err : thrown) (env' : Env) :
  getProp payload "metadata" = inr metadata ->
  getProp metadata "paymentId" = inr paymentId ->
  toBoolean paymentId = true ->
  refundStripePaymentIntent paymentId (env st) = (inl err, env') ->
  noShow payload st =
  (inr (Some {| status := 500; body := error_body "Failed to process refund" |}),
   {| env := env';
      trace := trace st ++
               [RefundStripePaymentIntent paymentId; refund_failure_log paymentId err] |}).
Proof.
  intros Hm Hp Htruthy Hrefund. unfold noShow. run.
  rewrite Hm; run. rewrite Hp; run. rewrite Htruthy; run. rewrite Hrefund; run.
  now rewrite <- app_assoc.
Qed.

(** *** Meeting ended *)

Lemma meetingEnded_untracked (kind : string) (payload metadata mentorUserId : value)
    (st : State) :
  getProp payload "metadata" = inr metadata ->
  getProp metadata "mentorUserId" = inr mentorUserId ->
  toBoolean mentorUserId = false ->
  meetingEnded (VStr kind) payload st =
  (inr None,
   {| env := env st; trace := trace st ++ meeting_ended_logs (VStr kind) payload |}).
Proof.
  intros Hm Hu Hfalsy. unfold meetingEnded. run.
  rewrite Hm; run. rewrite Hu; run. rewrite Hfalsy.
  unfold meeting_ended_logs. now rewrite <- app_assoc.
Qed.

Lemma meetingEnded_tracked (kind : string) (payload metadata mentorUserId actorUserId : value)
    (st : State) (outcome : thrown + unit) (env' : Env) :
  getProp payload "metadata" = inr metadata ->
  getProp metadata "mentorUserId" = inr mentorUserId ->
  getProp metadata "actorUserId" = inr actorUserId ->
  toBoolean mentorUserId = true ->
  createAnalyticsEvent (completedBooking mentorUserId actorUserId) (env st) = (outcome, env') ->
  meetingEnded (VStr kind) payload st =
  (match outcome with inr _ => inr None | inl err => inl err end,
   {| env := env';
      trace := trace st ++ meeting_ended_logs (VStr kind) payload ++
               [CreateAnalyticsEvent (completedBooking mentorUserId actorUserId)] |}).
Proof.
  intros Hm Hu Ha Htruthy Hcall. unfold meetingEnded. run.
  rewrite Hm; run. rewrite Hu; run. rewrite Htruthy; run. rewrite Ha; run.
  rewrite Hcall. unfold meeting_ended_logs.
  cbn [app]. rewrite <- !app_assoc. cbn [app]. now destruct outcome.
Qed.

(** Reading one property of a value succeeds exactly when reading another
    does: only [undefined] and [null] throw. *)
Lemma getProp_total (v : value) (k k' : string) (x : value) :
  getProp v k = inr x -> exists y, getProp v k' = inr y.
Proof.
  destruct v; cbn; try discriminate; intros _; eexists; reflexivity.
Qed.

(** *** Unreadable metadata

    When [payload] or [payload.metadata] is [undefined] or [null] the
    property read throws, before any refund or analytics call. *)

Lemma noShow_unreadable (payload : value) (error : thrown) (st : State) :
  (getProp payload "metadata" = inl error \/
   exists metadata,
     getProp payload "metadata" = inr metadata /\
     getProp metadata "paymentId" = inl error) ->
  noShow payload st = (inl error, st).
Proof.
  intros [Hm | (metadata & Hm & Hp)]; unfold noShow; run; rewrite Hm; run.
  - reflexivity.
  - now rewrite Hp.
Qed.

Lemma meetingEnded_unreadable (kind : string) (payload : value) (error : thrown) (st : State) :
  (getProp payload "metadata" = inl error \/
   exists metadata,
     getProp payload "metadata" = inr metadata /\
     getProp metadata "mentorUserId" = inl error) ->
  meetingEnded (VStr kind) payload st =
  (inl error,
   {| env := env st; trace := trace st ++ meeting_ended_logs (VStr kind) payload |}).
Proof.
  intros [Hm | (metadata & Hm & Hu)]; unfold meetingEnded; run; rewrite Hm; run.
  - unfold meeting_ended_logs. now rewrite <- app_assoc.
  - rewrite Hu; run. unfold meeting_ended_logs. now rewrite <- app_assoc.
Qed.

End BranchFacts.

(** ** Dispatch: failures, no-show and meeting ended *)

Section DispatchClaims.

Context {C : Collaborators}.

Import Js.

(** The handler after a dispatch block that ran to its end or returned *)
Lemma POST_dispatch_returned (req : Request) (triggerEvent payload : value)
    (returned : option Response) (st st2 : State) :
  delivers req triggerEvent payload ->
  dispatch triggerEvent payload (received req triggerEvent payload st) = (inr returned, st2) ->
  POST req st = finish returned st2.
Proof.
  intros Hdel Hrun. rewrite (POST_delivers req triggerEvent payload st Hdel).
  unfold bind, guardedDispatch, tryCatch. now rewrite Hrun.
Qed.

(** The handler after a dispatch block that threw *)
Lemma POST_dispatch_thrown (req : Request) (triggerEvent payload : value)
    (error : thrown) (st st2 : State) :
  delivers req triggerEvent payload ->
  dispatch triggerEvent payload (received req triggerEvent payload st) = (inl error, st2) ->
  POST req st = (inr generic_failure, record (dispatch_failure_log triggerEvent error) st2).
Proof.
  intros Hdel Hrun. rewrite (POST_delivers req triggerEvent payload st Hdel).
  unfold bind, guardedDispatch, tryCatch. rewrite Hrun. run.
  now rewrite (delivers_printable _ _ _ Hdel).
Qed.

(** C5.  A no-show event whose metadata holds no payment id (none, or a
    falsy one) is answered 400 and no refund is asked for.  With a payment id
    the refund action is called, once and with that id; if it throws, the
    answer is 500 with [{error: 'Failed to process refund'}], which is not the
    body of the generic dispatch failure.  No refund is ever asked for
    without a payment id in the metadata. *)
Theorem POST_no_show_refund (req : Request) (payload : value) (st : State) :
  delivers req (VStr "AFTER_HOSTS_CAL_VIDEO_NO_SHOW") payload ->
  (forall metadata paymentId,
     getProp payload "metadata" = inr metadata ->
     getProp metadata "paymentId" = inr paymentId ->
     toBoolean paymentId = false ->
     fst (POST req st) = inr {| status := 400; body := error_body "Missing paymentId" |} /\
     untouched st (snd (POST req st))) /\
  (forall metadata paymentId,
     getProp payload "metadata" = inr metadata ->
     getProp metadata "paymentId" = inr paymentId ->
     toBoolean paymentId = true ->
     refunds_of (trace (snd (POST req st))) = (refunds_of (trace st) ++ [paymentId])%list /\
     forall (err : thrown) (env' : Env),
       refundStripePaymentIntent paymentId (env st) = (inl err, env') ->
       fst (POST req st) =
         inr {| status := 500; body := error_body "Failed to process refund" |}) /\
  (refunds_of (trace (snd (POST req st))) <> refunds_of (trace st) ->
   exists metadata paymentId,
     getProp payload "metadata" = inr metadata /\
     getProp metadata "paymentId" = inr paymentId /\
     toBoolean paymentId = true) /\
  error_body "Failed to process refund" <> body generic_failure.
Proof.
  intros Hdel.
  set (st1 := received req (VStr "AFTER_HOSTS_CAL_VIDEO_NO_SHOW") payload st).
  assert (Hdispatch : dispatch (VStr "AFTER_HOSTS_CAL_VIDEO_NO_SHOW") payload st1
                      = noShow payload st1) by reflexivity.
  assert (Hmissing : forall metadata paymentId,
            getProp payload "metadata" = inr metadata ->
            getProp metadata "paymentId" = inr paymentId ->
            toBoolean paymentId = false ->
            fst (POST req st) =
              inr {| status := 400; body := error_body "Missing paymentId" |} /\
            untouched st (snd (POST req st))).
  { intros metadata paymentId Hm Hp Hfalsy.
    rewrite (POST_dispatch_returned req _ payload _ st (record missing_paymentId_log st1) Hdel)
      by (fold st1; rewrite Hdispatch; now apply (noShow_missing payload metadata paymentId)).
    cbn [finish ret fst snd]. split; [reflexivity|].
    unfold untouched, st1. cbn [env trace record received].
    rewrite !bookings_of_app, !refunds_of_app, !analytics_of_app. cbn.
    now rewrite !app_nil_r. }
  assert (Hunreadable : forall error,
            noShow payload st1 = (inl error, st1) ->
            refunds_of (trace (snd (POST req st))) = refunds_of (trace st)).
  { intros error Hrun. rewrite <- Hdispatch in Hrun.
    rewrite (POST_dispatch_thrown req _ payload error st st1 Hdel Hrun).
    unfold st1. cbn [snd trace record received].
    rewrite !refunds_of_app. cbn. now rewrite !app_nil_r. }
  split; [exact Hmissing|]. split; [|split].
  - intros metadata paymentId Hm Hp Htruthy.
    destruct (refundStripePaymentIntent paymentId (env st)) as [[err | []] env'] eqn:Hcall.
    + rewrite (POST_dispatch_returned req _ payload _ st _ Hdel
                 (eq_trans Hdispatch
                    (noShow_refund_failed payload metadata paymentId st1 err env'
                       Hm Hp Htruthy Hcall))).
      cbn [finish ret fst snd trace]. split.
      * unfold st1. cbn [trace received]. rewrite !refunds_of_app. cbn.
        now rewrite !app_nil_r.
      * intros err0 env0 E. reflexivity.
    + rewrite (POST_dispatch_returned req _ payload _ st _ Hdel
                 (eq_trans Hdispatch
                    (noShow_refunded payload metadata paymentId st1 env'
                       Hm Hp Htruthy Hcall))).
      cbn [finish ret fst snd trace]. split.
      * unfold st1. cbn [trace received]. rewrite !refunds_of_app. cbn.
        now rewrite !app_nil_r.
      * intros err0 env0 E. discriminate E.
  - intros Hchanged.
    destruct (getProp payload "metadata") as [error | metadata] eqn:Hm.
    { exfalso. apply Hchanged. apply (Hunreadable error).
      apply noShow_unreadable. now left. }
    destruct (getProp metadata "paymentId") as [error | paymentId] eqn:Hp.
    { exfalso. apply Hchanged. apply (Hunreadable error).
      apply noShow_unreadable. right. now exists metadata. }
    exists metadata, paymentId. split; [reflexivity|]. split; [exact Hp|].
    destruct (toBoolean paymentId) eqn:Htruthy; [reflexivity|].
    exfalso. apply Hchanged.
    destruct (Hmissing metadata paymentId eq_refl Hp Htruthy) as [_ (_ & _ & Hr & _)].
    exact Hr.
  - discriminate.
Qed.

(** C6.  A meeting-ended event whose metadata holds a mentor user id makes
    the handler emit exactly one analytics event: a COMPLETED_BOOKING whose
    target is that id and whose actor is the actor user id of the metadata
    when there is one and [null] otherwise.  Without a mentor user id (none,
    or a falsy one) the event is acknowledged and nothing is emitted; no
    analytics event is ever emitted without a mentor user id in the metadata. *)
Theorem POST_meeting_ended_emits_completed_booking
    (req : Request) (payload : value) (st : State) :
  delivers req (VStr "MEETING_ENDED") payload ->
  (forall metadata mentorUserId,
     getProp payload "metadata" = inr metadata ->
     getProp metadata "mentorUserId" = inr mentorUserId ->
     toBoolean mentorUserId = true ->
     exists actorUserId passed,
       getProp metadata "actorUserId" = inr actorUserId /\
       analytics_of (trace (snd (POST req st))) =
         (analytics_of (trace st) ++
          [{| Queries.eventType := "COMPLETED_BOOKING";
              Queries.targetUserId := mentorUserId;
              Queries.actorUserId := passed |}])%list /\
       (actorUserId = VUndefined \/ actorUserId = VNull -> passed = VNull) /\
       (actorUserId <> VUndefined -> actorUserId <> VNull -> passed = actorUserId)) /\
  (forall metadata mentorUserId,
     getProp payload "metadata" = inr metadata ->
     getProp metadata "mentorUserId" = inr mentorUserId ->
     toBoolean mentorUserId = false ->
     fst (POST req st) = inr {| status := 200; body := received_body |} /\
     untouched st (snd (POST req st))) /\
  (analytics_of (trace (snd (POST req st))) <> analytics_of (trace st) ->
   exists metadata mentorUserId,
     getProp payload "metadata" = inr metadata /\
     getProp metadata "mentorUserId" = inr mentorUserId /\
     toBoolean mentorUserId = true).
Proof.
  intros Hdel.
  set (st1 := received req (VStr "MEETING_ENDED") payload st).
  assert (Hdispatch : dispatch (VStr "MEETING_ENDED") payload st1
                      = meetingEnded (VStr "MEETING_ENDED") payload st1) by reflexivity.
  assert (Hquiet : forall metadata mentorUserId,
            getProp payload "metadata" = inr metadata ->
            getProp metadata "mentorUserId" = inr mentorUserId ->
            toBoolean mentorUserId = false ->
            fst (POST req st) = inr {| status := 200; body := received_body |} /\
            untouched st (snd (POST req st))).
  { intros metadata mentorUserId Hm Hu Hfalsy.
    rewrite (POST_dispatch_returned req _ payload None st _ Hdel
               (eq_trans Hdispatch
                  (meetingEnded_untracked "MEETING_ENDED" payload metadata
                     mentorUserId st1 Hm Hu Hfalsy))).
    cbn [finish ret fst snd]. split; [reflexivity|].
    unfold untouched, st1. cbn [env trace received].
    rewrite !bookings_of_app, !refunds_of_app, !analytics_of_app. cbn.
    now rewrite !app_nil_r. }
  assert (Hunreadable : forall error,
            (getProp payload "metadata" = inl error \/
             exists metadata,
               getProp payload "metadata" = inr metadata /\
               getProp metadata "mentorUserId" = inl error) ->
            analytics_of (trace (snd (POST req st))) = analytics_of (trace st)).
  { intros error Hcase.
    pose proof (meetingEnded_unreadable "MEETING_ENDED" payload error st1 Hcase) as Hrun.
    rewrite <- Hdispatch in Hrun.
    rewrite (POST_dispatch_thrown req _ payload error st _ Hdel Hrun).
    unfold st1. cbn [snd trace record received].
    rewrite !analytics_of_app. cbn. now rewrite !app_nil_r. }
  split; [|split; [exact Hquiet|]].
  - intros metadata mentorUserId Hm Hu Htruthy.
    destruct (getProp_total metadata "mentorUserId" "actorUserId" _ Hu) as [actorUserId Ha].
    exists actorUserId, (nullish actorUserId VNull). split; [exact Ha|].
    split; [|split].
    + destruct (createAnalyticsEvent (completedBooking mentorUserId actorUserId) (env st))
        as [outcome env'] eqn:Hcall.
      pose proof (meetingEnded_tracked "MEETING_ENDED" payload metadata mentorUserId
                    actorUserId st1 outcome env' Hm Hu Ha Htruthy Hcall) as Hrun.
      rewrite <- Hdispatch in Hrun.
      destruct outcome as [err | u].
      * rewrite (POST_dispatch_thrown req _ payload err st _ Hdel Hrun).
        unfold st1. cbn [snd trace record received].
        rewrite !analytics_of_app. cbn. now rewrite !app_nil_r.
      * rewrite (POST_dispatch_returned req _ payload None st _ Hdel Hrun).
        unfold st1. cbn [finish ret snd trace record received].
        rewrite !analytics_of_app. cbn. now rewrite !app_nil_r.
    + intros [-> | ->]; reflexivity.
    + intros Hu' Hn'. destruct actorUserId; try reflexivity; contradiction.
  - intros Hchanged.
    destruct (getProp payload "metadata") as [error | metadata] eqn:Hm.
    { exfalso. apply Hchanged. apply (Hunreadable error). now left. }
    destruct (getProp metadata "mentorUserId") as [error | mentorUserId] eqn:Hu.
    { exfalso. apply Hchanged. apply (Hunreadable error). right. now exists metadata. }
    exists metadata, mentorUserId. split; [reflexivity|]. split; [exact Hu|].
    destruct (toBoolean mentorUserId) eqn:Htruthy; [reflexivity|].
    exfalso. apply Hchanged.
    destruct (Hquiet metadata mentorUserId eq_refl Hu Htruthy) as [_ (_ & _ & _ & Ha)].
    exact Ha.
Qed.

(** C10.  The analytics call of a meeting-ended event is awaited inside the
    dispatch block: when it throws, the handler has made the call and answers
    500 with the generic body of a dispatch failure, not 200. *)
Theorem POST_analytics_failure_answers_500
    (req : Request) (payload metadata mentorUserId actorUserId : value)
    (err : thrown) (env' : Env) (st : State) :
  delivers req (VStr "MEETING_ENDED") payload ->
  getProp payload "metadata" = inr metadata ->
  getProp metadata "mentorUserId" = inr mentorUserId ->
  getProp metadata "actorUserId" = inr actorUserId ->
  toBoolean mentorUserId = true ->
  createAnalyticsEvent (completedBooking mentorUserId actorUserId) (env st) = (inl err, env') ->
  fst (POST req st) =
    inr {| status := 500; body := error_body "Failed to process webhook" |} /\
  fst (POST req st) <> inr {| status := 200; body := received_body |} /\
  In (CreateAnalyticsEvent (completedBooking mentorUserId actorUserId))
     (trace (snd (POST req st))) /\
  In (dispatch_failure_log (VStr "MEETING_ENDED") err) (trace (snd (POST req st))).
Proof.
  intros Hdel Hm Hu Ha Htruthy Hcall.
  set (st1 := received req (VStr "MEETING_ENDED") payload st).
  pose proof (meetingEnded_tracked "MEETING_ENDED" payload metadata mentorUserId
                actorUserId st1 (inl err) env' Hm Hu Ha Htruthy Hcall) as Hrun.
  change (meetingEnded (VStr "MEETING_ENDED") payload st1)
    with (dispatch (VStr "MEETING_ENDED") payload st1) in Hrun.
  rewrite (POST_dispatch_thrown req _ payload err st _ Hdel Hrun).
  cbn [fst snd trace record]. split; [reflexivity|]. split; [discriminate|].
  split; apply in_or_app.
  - left. apply in_or_app. right. apply in_or_app. right. now left.
  - right. now left.
Qed.

End DispatchClaims.

(** ** Booking created *)

Section BookingFacts.

Context {C : Collaborators}.

Import Js.

Lemma storeBooking_invalid (event : value) (issues : SchemaIssues) (st : State) :
  safeParse event = inl issues ->
  storeBooking event st =
  (inr {| status := 400; body := error_body "Invalid booking payload" |},
   {| env := env st;
      trace := trace st ++ [processing_log; invalid_payload_log issues] |}).
Proof.
  intros Hv. unfold storeBooking. run. rewrite Hv; run. now rewrite <- app_assoc.
Qed.

Lemma storeBooking_stored (event : value) (data : Calcom.CalcomBookingPayload)
    (attendee : Calcom.Attendee) (others : list Calcom.Attendee)
    (booking : LocalBooking) (env' : Env) (st : State) :
  safeParse event = inr data ->
  Calcom.attendees data = attendee :: others ->
  createLocalBooking (localBooking_input event data attendee) (env st) = (inr booking, env') ->
  storeBooking event st =
  (inr {| status := 201; body := BookingBody booking |},
   {| env := env';
      trace := trace st ++
               [processing_log;
                CreateLocalBooking (localBooking_input event data attendee);
                stored_log booking data] |}).
Proof.
  intros Hv Ha Hcall. unfold storeBooking. run. rewrite Hv; run.
  rewrite Ha. cbn [first_attendee]. run. rewrite Hcall; run.
  now rewrite <- !app_assoc.
Qed.

Lemma storeBooking_failed (event : value) (data : Calcom.CalcomBookingPayload)
    (attendee : Calcom.Attendee) (others : list Calcom.Attendee)
    (error : thrown) (env' : Env) (st : State) :
  safeParse event = inr data ->
  Calcom.attendees data = attendee :: others ->
  createLocalBooking (localBooking_input event data attendee) (env st) = (inl error, env') ->
  storeBooking event st =
  (inr {| status := 500; body := error_body "Failed to process booking" |},
   {| env := env';
      trace := trace st ++
               [processing_log;
                CreateLocalBooking (localBooking_input event data attendee)]
               ++ store_failure_logs event error |}).
Proof.
  intros Hv Ha Hcall. unfold storeBooking. run. rewrite Hv; run.
  rewrite Ha. cbn [first_attendee]. run. rewrite Hcall; run.
  unfold store_failure_logs. cbn [app]. now rewrite <- !app_assoc.
Qed.

(** A validated payload with an empty list of attendees: the read of
    [attendee.name] throws before the query is called. *)
Lemma storeBooking_no_attendee (event : value) (data : Calcom.CalcomBookingPayload)
    (st : State) :
  safeParse event = inr data ->
  Calcom.attendees data = [] ->
  storeBooking event st =
  (inr {| status := 500; body := error_body "Failed to process booking" |},
   {| env := env st;
      trace := trace st ++
               processing_log ::
               store_failure_logs event
                 (TypeError "Cannot read properties of undefined (reading 'name')") |}).
Proof.
  intros Hv Ha. unfold storeBooking. run. rewrite Hv; run.
  rewrite Ha. cbn [first_attendee]. run.
  unfold store_failure_logs. cbn [app]. now rewrite <- !app_assoc.
Qed.

(** [storeBooking] catches whatever goes wrong inside it: it always answers. *)
Lemma storeBooking_answers (event : value) (st : State) :
  exists response st', storeBooking event st = (inr response, st').
Proof.
  destruct (safeParse event) as [issues | data] eqn:Hv.
  - rewrite (storeBooking_invalid event issues st Hv). eauto.
  - destruct (Calcom.attendees data) as [|attendee others] eqn:Ha.
    + rewrite (storeBooking_no_attendee event data st Hv Ha). eauto.
    + destruct (createLocalBooking (localBooking_input event data attendee) (env st))
        as [[error | booking] env'] eqn:Hcall.
      * rewrite (storeBooking_failed event data attendee others error env' st Hv Ha Hcall).
        eauto.
      * rewrite (storeBooking_stored event data attendee others booking env' st Hv Ha Hcall).
        eauto.
Qed.

(** The dispatch of a booking-created event is [storeBooking]. *)
Lemma dispatch_booking_created (payload : value) (st : State)
    (response : Response) (st' : State) :
  storeBooking payload st = (inr response, st') ->
  dispatch (VStr "BOOKING_CREATED") payload st = (inr (Some response), st').
Proof.
  intros Hrun. cbn [dispatch String.eqb Ascii.eqb Bool.eqb]. unfold bind. now rewrite Hrun.
Qed.

Lemma POST_runs_storeBooking (req : Request) (payload : value)
    (response : Response) (st st' : State) :
  delivers req (VStr "BOOKING_CREATED") payload ->
  storeBooking payload (received req (VStr "BOOKING_CREATED") payload st) = (inr response, st') ->
  POST req st = (inr response, st').
Proof.
  intros Hdel Hrun.
  now rewrite (POST_dispatch_returned req _ payload (Some response) st st' Hdel
                 (dispatch_booking_created _ _ _ _ Hrun)).
Qed.

(** Only the no-show and the meeting-ended cases can throw past their own
    handlers: [storeBooking] catches everything, the other cases only log. *)
Lemma dispatch_throws_only (triggerEvent payload : value) (error : thrown) (st st' : State) :
  toString_throws triggerEvent = false ->
  dispatch triggerEvent payload st = (inl error, st') ->
  triggerEvent = VStr "AFTER_HOSTS_CAL_VIDEO_NO_SHOW" \/ triggerEvent = VStr "MEETING_ENDED".
Proof.
  intros Hprint.
  destruct triggerEvent as [| |b|x|kind|xs|props];
    try (cbn [dispatch]; rewrite unhandled_run by exact Hprint; discriminate).
  unfold dispatch.
  destruct (String.eqb_spec kind "BOOKING_CREATED") as [->|_].
  { destruct (storeBooking_answers payload st) as (response & st2 & Hrun).
    unfold bind. rewrite Hrun. discriminate. }
  destruct (String.eqb_spec kind "AFTER_HOSTS_CAL_VIDEO_NO_SHOW") as [->|_]; [now left|].
  destruct (String.eqb_spec kind "RECORDING_TRANSCRIPTION_GENERATED") as [->|_];
    [rewrite logOnly_run by reflexivity; discriminate|].
  destruct (String.eqb_spec kind "RECORDING_READY") as [->|_];
    [rewrite logOnly_run by reflexivity; discriminate|].
  destruct (String.eqb_spec kind "MEETING_STARTED") as [->|_];
    [rewrite logOnly_run by reflexivity; discriminate|].
  destruct (String.eqb_spec kind "MEETING_ENDED") as [->|_]; [now right|].
  destruct (String.eqb_spec kind "BOOKING_CANCELED") as [->|_];
    [rewrite logOnly_run by reflexivity; discriminate|].
  rewrite unhandled_run by reflexivity. discriminate.
Qed.

End BookingFacts.

(** ** Failures of the dispatch *)

Section FailureClaims.

Context {C : Collaborators}.

Import Js.

(** C8.  Whatever the switch throws past its own handlers, for whatever
    event, the catch of the dispatch block answers 500 with the generic body
    [{error: 'Failed to process webhook'}], after one error line that carries
    the event kind and the message of the failure.  Such a failure comes from
    the no-show or the meeting-ended case: the booking case catches its own. *)
Theorem POST_dispatch_failure (req : Request) (triggerEvent payload : value)
    (error : thrown) (st st2 : State) :
  delivers req triggerEvent payload ->
  dispatch triggerEvent payload (received req triggerEvent payload st) = (inl error, st2) ->
  (exists st',
     POST req st =
       (inr {| status := 500; body := error_body "Failed to process webhook" |}, st') /\
     env st' = env st2 /\
     trace st' =
       (trace st2 ++
        [Console ErrorLevel
           [Template [Lit "❌ Error processing webhook event "; Subst triggerEvent; Lit ":"];
            Str (errorMessage error)]])%list) /\
  (triggerEvent = VStr "AFTER_HOSTS_CAL_VIDEO_NO_SHOW" \/ triggerEvent = VStr "MEETING_ENDED").
Proof.
  intros Hdel Hrun. split.
  - rewrite (POST_dispatch_thrown _ _ _ _ _ _ Hdel Hrun).
    eexists. split; [reflexivity|]. now split.
  - exact (dispatch_throws_only _ _ _ _ _ (delivers_printable _ _ _ Hdel) Hrun).
Qed.

End FailureClaims.

Section BookingClaims.

Context {C : Collaborators}.

Import Js.

(** C2.  For a booking-created event: a payload the schema rejects is
    answered 400 and nothing is stored; a validated payload whose booking the
    query stores is answered 201 with the record the query returned, and that
    one booking is all that was stored; when the query throws the answer is
    500 and the raw payload is logged.  In every case the handler has stored
    at most one booking, and one only for a payload that passed validation. *)
Theorem POST_booking_created_outcomes (req : Request) (payload : value) (st : State) :
  delivers req (VStr "BOOKING_CREATED") payload ->
  (forall issues,
     safeParse payload = inl issues ->
     fst (POST req st) =
       inr {| status := 400; body := error_body "Invalid booking payload" |} /\
     untouched st (snd (POST req st))) /\
  (forall data attendee others booking env',
     safeParse payload = inr data ->
     Calcom.attendees data = attendee :: others ->
     createLocalBooking (localBooking_input payload data attendee) (env st)
       = (inr booking, env') ->
     fst (POST req st) = inr {| status := 201; body := BookingBody booking |} /\
     bookings_of (trace (snd (POST req st))) =
       (bookings_of (trace st) ++ [localBooking_input payload data attendee])%list /\
     env (snd (POST req st)) = env') /\
  (forall data attendee others error env',
     safeParse payload = inr data ->
     Calcom.attendees data = attendee :: others ->
     createLocalBooking (localBooking_input payload data attendee) (env st)
       = (inl error, env') ->
     fst (POST req st) =
       inr {| status := 500; body := error_body "Failed to process booking" |} /\
     In (Console ErrorLevel [Str "Raw payload:"; JsonPretty payload])
        (trace (snd (POST req st)))) /\
  (bookings_of (trace (snd (POST req st))) = bookings_of (trace st) \/
   exists data attendee,
     safeParse payload = inr data /\
     bookings_of (trace (snd (POST req st))) =
       (bookings_of (trace st) ++ [localBooking_input payload data attendee])%list).
Proof.
  intros Hdel.
  set (st1 := received req (VStr "BOOKING_CREATED") payload st).
  assert (Hinvalid : forall issues, safeParse payload = inl issues ->
            fst (POST req st) =
              inr {| status := 400; body := error_body "Invalid booking payload" |} /\
            untouched st (snd (POST req st))).
  { intros issues Hv.
    rewrite (POST_runs_storeBooking req payload _ st _ Hdel
               (storeBooking_invalid payload issues st1 Hv)).
    cbn [fst snd]. split; [reflexivity|].
    unfold untouched, st1. cbn [env trace received].
    rewrite !bookings_of_app, !refunds_of_app, !analytics_of_app. cbn.
    now rewrite !app_nil_r. }
  assert (Hstored : forall data attendee others outcome env',
            safeParse payload = inr data ->
            Calcom.attendees data = attendee :: others ->
            createLocalBooking (localBooking_input payload data attendee) (env st)
              = (outcome, env') ->
            bookings_of (trace (snd (POST req st))) =
              (bookings_of (trace st) ++ [localBooking_input payload data attendee])%list).
  { intros data attendee others [error | booking] env' Hv Ha Hcall.
    - rewrite (POST_runs_storeBooking req payload _ st _ Hdel
                 (storeBooking_failed payload data attendee others error env' st1 Hv Ha Hcall)).
      unfold st1. cbn [snd trace received].
      rewrite !bookings_of_app. cbn. now rewrite !app_nil_r.
    - rewrite (POST_runs_storeBooking req payload _ st _ Hdel
                 (storeBooking_stored payload data attendee others booking env' st1 Hv Ha Hcall)).
      unfold st1. cbn [snd trace received].
      rewrite !bookings_of_app. cbn. now rewrite !app_nil_r. }
  split; [exact Hinvalid|]. split; [|split].
  - intros data attendee others booking env' Hv Ha Hcall.
    split; [|split].
    + now rewrite (POST_runs_storeBooking req payload _ st _ Hdel
                     (storeBooking_stored payload data attendee others booking env' st1
                        Hv Ha Hcall)).
    + exact (Hstored data attendee others _ env' Hv Ha Hcall).
    + now rewrite (POST_runs_storeBooking req payload _ st _ Hdel
                     (storeBooking_stored payload data attendee others booking env' st1
                        Hv Ha Hcall)).
  - intros data attendee others error env' Hv Ha Hcall.
    rewrite (POST_runs_storeBooking req payload _ st _ Hdel
               (storeBooking_failed payload data attendee others error env' st1 Hv Ha Hcall)).
    cbn [fst snd trace]. split; [reflexivity|].
    apply in_or_app. right. apply in_or_app. right. right. now left.
  - destruct (safeParse payload) as [issues | data] eqn:Hv.
    + left. destruct (Hinvalid issues eq_refl) as [_ (_ & Hb & _)]. exact Hb.
    + destruct (Calcom.attendees data) as [|attendee others] eqn:Ha.
      * left.
        rewrite (POST_runs_storeBooking req payload _ st _ Hdel
                   (storeBooking_no_attendee payload data st1 Hv Ha)).
        unfold st1. cbn [snd trace received].
        rewrite !bookings_of_app. cbn. now rewrite !app_nil_r.
      * right. exists data, attendee. split; [reflexivity|].
        destruct (createLocalBooking (localBooking_input payload data attendee) (env st))
          as [outcome env'] eqn:Hcall.
        exact (Hstored data attendee others outcome env' eq_refl Ha Hcall).
Qed.

(** C3.  For a booking-created event with a validated payload whose start
    time is the instant [T] and whose duration is [D] minutes, the record
    handed to the store starts at [T], lasts [D] and, if its end time is a
    time at all, ends at [T + D * 60000] milliseconds exactly; it is one
    whenever that instant is within the range of [Date]. *)
Theorem POST_booking_end_time (req : Request) (payload : value)
    (data : Calcom.CalcomBookingPayload) (attendee : Calcom.Attendee)
    (others : list Calcom.Attendee) (T : Z) (st : State) :
  delivers req (VStr "BOOKING_CREATED") payload ->
  safeParse payload = inr data ->
  Calcom.attendees data = attendee :: others ->
  Date_of_string (Calcom.startTime data) = Some T ->
  exists stored,
    bookings_of (trace (snd (POST req st))) = (bookings_of (trace st) ++ [stored])%list /\
    Queries.startTime stored = Some T /\
    Queries.duration stored = Calcom.length data /\
    (forall E, Queries.endTime stored = Some E -> E = T + Calcom.length data * 60000) /\
    (Z.abs (T + Calcom.length data * 60000) <= maxTime ->
     Queries.endTime stored = Some (T + Calcom.length data * 60000)).
Proof.
  intros Hdel Hv Ha Hstart.
  set (st1 := received req (VStr "BOOKING_CREATED") payload st).
  exists (localBooking_input payload data attendee). split.
  - destruct (createLocalBooking (localBooking_input payload data attendee) (env st))
      as [[error | booking] env'] eqn:Hcall.
    + rewrite (POST_runs_storeBooking req payload _ st _ Hdel
                 (storeBooking_failed payload data attendee others error env' st1 Hv Ha Hcall)).
      unfold st1. cbn [snd trace received].
      rewrite !bookings_of_app. cbn. now rewrite !app_nil_r.
    + rewrite (POST_runs_storeBooking req payload _ st _ Hdel
                 (storeBooking_stored payload data attendee others booking env' st1 Hv Ha Hcall)).
      unfold st1. cbn [snd trace received].
      rewrite !bookings_of_app. cbn. now rewrite !app_nil_r.
  - unfold localBooking_input.
    cbn [Queries.startTime Queries.duration Queries.endTime].
    rewrite Hstart. cbn [getTime add mul newDate TimeClip].
    split; [reflexivity|]. split; [reflexivity|]. split.
    + intros E. destruct (Z.abs (T + Calcom.length data * 60000) <=? maxTime);
        [intros [= <-]; reflexivity | discriminate].
    + intros Hrange. apply Z.leb_le in Hrange. now rewrite Hrange.
Qed.

End BookingClaims.

(** * The route in the demo world *)

#[local] Existing Instance Demo.collaborators.

(** A signed delivery of a known event is authentic and parses back. *)
Ltac demo_delivers event :=
  split; [reflexivity | exists event; repeat split; reflexivity].

Example booking_created_run :
  fst (POST (Demo.signed Demo.booking_created) (Demo.start Demo.up)) =
  inr {| status := 201;
         body := BookingBody
                   (1, localBooking_input Demo.booking_payload Demo.booking_data
                         Demo.booking_attendee) |}.
Proof. reflexivity. Qed.

Example malformed_booking_run :
  fst (POST (Demo.signed Demo.malformed_booking) (Demo.start Demo.up)) =
  inr {| status := 400; body := error_body "Invalid booking payload" |}.
Proof. reflexivity. Qed.

Example recording_ready_run :
  fst (POST (Demo.signed Demo.recording_ready) (Demo.start Demo.up)) =
  inr {| status := 200; body := received_body |}.
Proof. reflexivity. Qed.

(** A body that is the JSON text [null] is authentic and parses, but is no
    event: reading its [triggerEvent] throws outside every try block. *)
Example null_event_run :
  POST (Demo.signed Js.VNull) (Demo.start Demo.up) =
  (inl (Js.TypeError "Cannot read properties of null (reading 'triggerEvent')"),
   {| env := Demo.up; trace := [JsonParse "null"] |}).
Proof. reflexivity. Qed.

(** A wrong signature of the right length: 64 zeros *)
Example wrong_signature_run :
  POST (Demo.with_signature
          "0000000000000000000000000000000000000000000000000000000000000000" "{}")
       (Demo.start Demo.up) =
  (inr {| status := 400; body := error_body "Invalid signature" |},
   {| env := Demo.up; trace := [invalid_signature_log] |}).
Proof. reflexivity. Qed.

Lemma POST_throws_on_signature_length_witness :
  List.length (Buffer.from_utf8 (signature_of (Demo.with_signature "deadbeef" "{}")))
    <> 64%nat /\
  POST (Demo.with_signature "deadbeef" "{}") (Demo.start Demo.up)
    = (inl length_error, Demo.start Demo.up).
Proof.
  split; [vm_compute; discriminate|].
  apply (POST_throws_on_signature_length
           (Demo.with_signature "deadbeef" "{}") (Demo.start Demo.up)).
  right. vm_compute. discriminate.
Defined.

Lemma POST_missing_signature_witness :
  headers_get (Demo.unsigned "{}") signature_header = None /\
  POST (Demo.unsigned "{}") (Demo.start Demo.up) = (inl length_error, Demo.start Demo.up).
Proof.
  split; [reflexivity|].
  apply (POST_missing_signature_is_not_turned_down
           (Demo.unsigned "{}") (Demo.start Demo.up)).
  reflexivity.
Defined.

Lemma POST_unparsable_body_witness :
  exists st',
    POST (Demo.with_signature (expectedSignature "oops") "oops") (Demo.start Demo.up)
      = (inr {| status := 400; body := error_body "Invalid payload" |}, st') /\
    untouched (Demo.start Demo.up) st'.
Proof.
  destruct (POST_unparsable_body
              (Demo.with_signature (expectedSignature "oops") "oops")
              (Js.ErrorObj "SyntaxError" "Unexpected token") (Demo.start Demo.up))
    as (st' & Hrun & _ & Hquiet).
  - reflexivity.
  - vm_compute. reflexivity.
  - exists st'. split; assumption.
Defined.

Lemma POST_acknowledges_quiet_kinds_witness :
  exists st',
    POST (Demo.signed Demo.ping) (Demo.start Demo.up)
      = (inr {| status := 200; body := received_body |}, st') /\
    untouched (Demo.start Demo.up) st'.
Proof.
  destruct (POST_acknowledges_quiet_kinds
              (Demo.signed Demo.ping) (Js.VStr "PING") (Js.VObj []) (Demo.start Demo.up))
    as (st' & Hrun & Hquiet & _).
  - demo_delivers Demo.ping.
  - right. cbn. intuition discriminate.
  - exists st'. split; assumption.
Defined.

Lemma POST_dispatch_failure_witness :
  exists st',
    POST (Demo.signed Demo.meeting_ended_no_metadata) (Demo.start Demo.up)
      = (inr {| status := 500; body := error_body "Failed to process webhook" |}, st') /\
    In (dispatch_failure_log
          (Js.VStr "MEETING_ENDED")
          (Js.TypeError "Cannot read properties of undefined (reading 'mentorUserId')"))
       (trace st').
Proof.
  edestruct (POST_dispatch_failure
               (Demo.signed Demo.meeting_ended_no_metadata)
               (Js.VStr "MEETING_ENDED") (Js.VObj [])
               (Js.TypeError "Cannot read properties of undefined (reading 'mentorUserId')")
               (Demo.start Demo.up))
    as [(st' & Hrun & _ & Htrace) _].
  - demo_delivers Demo.meeting_ended_no_metadata.
  - reflexivity.
  - exists st'. split; [exact Hrun|]. rewrite Htrace. apply in_or_app. right. now left.
Defined.

Lemma POST_no_show_refund_witness :
  fst (POST (Demo.signed Demo.no_show_unpaid) (Demo.start Demo.up))
    = inr {| status := 400; body := error_body "Missing paymentId" |} /\
  untouched (Demo.start Demo.up)
            (snd (POST (Demo.signed Demo.no_show_unpaid) (Demo.start Demo.up))).
Proof.
  destruct (POST_no_show_refund (C := Demo.collaborators)
              (Demo.signed Demo.no_show_unpaid)
              (Js.VObj [("metadata", Js.VObj [])]) (Demo.start Demo.up))
    as (Hmissing & _).
  - demo_delivers Demo.no_show_unpaid.
  - apply (Hmissing (Js.VObj []) Js.VUndefined); reflexivity.
Defined.

Example no_show_refund_failure_run :
  fst (POST (Demo.signed Demo.no_show_paid) (Demo.start Demo.broken)) =
  inr {| status := 500; body := error_body "Failed to process refund" |}.
Proof. reflexivity. Qed.

Example no_show_refunded_run :
  POST (Demo.signed Demo.no_show_paid) (Demo.start Demo.up) =
  (inr {| status := 200; body := received_body |},
   {| env := {| Demo.down := false; Demo.rows := [];
                Demo.refunded := [Js.VStr "pi_9"]; Demo.events := [] |};
      trace := JsonParse (Demo.text_of Demo.no_show_paid)
               :: received_logs (Js.VStr "AFTER_HOSTS_CAL_VIDEO_NO_SHOW")
                    (Js.VObj [("metadata", Js.VObj [("paymentId", Js.VStr "pi_9")])])
               ++ [RefundStripePaymentIntent (Js.VStr "pi_9")] |}).
Proof. reflexivity. Qed.

Lemma POST_meeting_ended_emits_completed_booking_witness :
  analytics_of
    (trace (snd (POST (Demo.signed Demo.meeting_ended) (Demo.start Demo.up)))) =
  [{| Queries.eventType := "COMPLETED_BOOKING";
      Queries.targetUserId := Js.VStr "mentor-7";
      Queries.actorUserId := Js.VStr "student-3" |}].
Proof.
  destruct (POST_meeting_ended_emits_completed_booking (C := Demo.collaborators)
              (Demo.signed Demo.meeting_ended)
              (Js.VObj [("metadata",
                         Js.VObj [("mentorUserId", Js.VStr "mentor-7");
                                  ("actorUserId", Js.VStr "student-3")])])
              (Demo.start Demo.up))
    as (Hemits & _).
  - demo_delivers Demo.meeting_ended.
  - destruct (Hemits (Js.VObj [("mentorUserId", Js.VStr "mentor-7");
                               ("actorUserId", Js.VStr "student-3")])
                     (Js.VStr "mentor-7") eq_refl eq_refl eq_refl)
      as (actorUserId & passed & Hactor & Htrace & _ & Hpassed).
    injection Hactor as <-.
    rewrite Htrace, Hpassed; [reflexivity | discriminate | discriminate].
Defined.

Example meeting_ended_without_actor_run :
  analytics_of
    (trace (snd (POST (C := Lab.collaborators)
                      (Demo.signed Lab.meeting_ended_without_actor)
                      (Lab.start Demo.up)))) =
  [{| Queries.eventType := "COMPLETED_BOOKING";
      Queries.targetUserId := Js.VStr "mentor-7";
      Queries.actorUserId := Js.VNull |}].
Proof. reflexivity. Qed.

Example unprintable_kind_run :
  POST (C := Lab.collaborators)
       (Demo.signed Lab.event_of_unprintable_kind) (Lab.start Demo.up) =
  (inl Js.conversion_error,
   record (received_object_log Lab.unprintable_kind Js.VUndefined)
     (record (JsonParse (Demo.text_of Lab.event_of_unprintable_kind))
        (Lab.start Demo.up))).
Proof. reflexivity. Qed.

Lemma POST_analytics_failure_answers_500_witness :
  fst (POST (Demo.signed Demo.meeting_ended) (Demo.start Demo.broken))
    = inr {| status := 500; body := error_body "Failed to process webhook" |}.
Proof.
  destruct (POST_analytics_failure_answers_500 (C := Demo.collaborators)
              (Demo.signed Demo.meeting_ended)
              (Js.VObj [("metadata",
                         Js.VObj [("mentorUserId", Js.VStr "mentor-7");
                                  ("actorUserId", Js.VStr "student-3")])])
              (Js.VObj [("mentorUserId", Js.VStr "mentor-7");
                        ("actorUserId", Js.VStr "student-3")])
              (Js.VStr "mentor-7") (Js.VStr "student-3")
              Demo.outage Demo.broken (Demo.start Demo.broken))
    as [Hfailed _].
  - demo_delivers Demo.meeting_ended.
  - reflexivity.
  - reflexivity.
  - reflexivity.
  - reflexivity.
  - reflexivity.
  - exact Hfailed.
Defined.

Lemma POST_booking_created_outcomes_witness :
  fst (POST (Demo.signed Demo.booking_created) (Demo.start Demo.up)) =
    inr {| status := 201;
           body := BookingBody
                     (1, localBooking_input Demo.booking_payload Demo.booking_data Demo.booking_attendee) |} /\
  bookings_of (trace (snd (POST (Demo.signed Demo.booking_created) (Demo.start Demo.up)))) =
    [localBooking_input Demo.booking_payload Demo.booking_data Demo.booking_attendee].
Proof.
  destruct (POST_booking_created_outcomes (C := Demo.collaborators)
              (Demo.signed Demo.booking_created) Demo.booking_payload (Demo.start Demo.up))
    as (_ & Hstored & _ & _).
  - demo_delivers Demo.booking_created.
  - destruct (Hstored Demo.booking_data Demo.booking_attendee []
                (1, localBooking_input Demo.booking_payload Demo.booking_data Demo.booking_attendee)
                {| Demo.down := false;
                   Demo.rows :=
                     [localBooking_input Demo.booking_payload Demo.booking_data Demo.booking_attendee];
                   Demo.refunded := []; Demo.events := [] |})
      as (Hresponse & Hbookings & _).
    + reflexivity.
    + reflexivity.
    + reflexivity.
    + split; [exact Hresponse | exact Hbookings].
Defined.

Example booking_store_failure_run :
  fst (POST (Demo.signed Demo.booking_created) (Demo.start Demo.broken)) =
  inr {| status := 500; body := error_body "Failed to process booking" |}.
Proof. reflexivity. Qed.

Lemma POST_booking_end_time_witness :
  exists stored,
    bookings_of (trace (snd (POST (Demo.signed Demo.booking_created) (Demo.start Demo.up))))
      = [stored] /\
    Queries.startTime stored = Some 1735725600000 /\
    Queries.endTime stored = Some 1735727400000.
Proof.
  destruct (POST_booking_end_time (C := Demo.collaborators)
              (Demo.signed Demo.booking_created) Demo.booking_payload
              Demo.booking_data Demo.booking_attendee [] 1735725600000 (Demo.start Demo.up))
    as (stored & Hbookings & Hstart & _ & _ & Hend).
  - demo_delivers Demo.booking_created.
  - reflexivity.
  - reflexivity.
  - reflexivity.
  - exists stored. split; [exact Hbookings|]. split; [exact Hstart|].
    apply Hend. cbn. unfold Js.maxTime. lia.
Defined.

(** Past the range of [Date] the end time is an Invalid Date: a booking that
    starts at the last instant [Date] can hold and lasts one minute. *)
Example end_time_out_of_range :
  map (fun stored => (Queries.startTime stored, Queries.endTime stored))
      (bookings_of
         (trace (snd (POST (Demo.signed Demo.booking_at_the_end_of_time)
                           (Demo.start Demo.up))))) =
  [(Some Js.maxTime, None)].
Proof. reflexivity. Qed.

(** * Every run takes one of the paths *)

Section PathFacts.

Context {C : Collaborators}.

Import Js.

Lemma quiet_or_acting (kind : string) :
  kind = "BOOKING_CREATED" \/ kind = "AFTER_HOSTS_CAL_VIDEO_NO_SHOW" \/
  kind = "MEETING_ENDED" \/
  In (VStr kind) (map VStr log_only_kinds) \/ ~ In (VStr kind) (map VStr known_kinds).
Proof.
  destruct (string_dec kind "BOOKING_CREATED") as [->|H1]; [now left|].
  destruct (string_dec kind "AFTER_HOSTS_CAL_VIDEO_NO_SHOW") as [->|H2]; [now right; left|].
  destruct (string_dec kind "MEETING_ENDED") as [->|H3]; [now right; right; left|].
  right; right; right.
  destruct (string_dec kind "RECORDING_TRANSCRIPTION_GENERATED") as [->|H4];
    [left; cbn; tauto|].
  destruct (string_dec kind "RECORDING_READY") as [->|H5]; [left; cbn; tauto|].
  destruct (string_dec kind "MEETING_STARTED") as [->|H6]; [left; cbn; tauto|].
  destruct (string_dec kind "BOOKING_CANCELED") as [->|H7]; [left; cbn; tauto|].
  right. cbn. intros H.
  repeat destruct H as [H | H]; try injection H as H; try congruence.
Qed.

Lemma dispatch_path (triggerEvent payload : value) (st : State) :
  toString_throws triggerEvent = false ->
  DispatchPath triggerEvent payload st (dispatch triggerEvent payload st).
Proof.
  intros Hprint.
  assert (Hquiet :
            In triggerEvent (map VStr log_only_kinds) \/
            ~ In triggerEvent (map VStr known_kinds) ->
            DispatchPath triggerEvent payload st (dispatch triggerEvent payload st)).
  { intros Hkind.
    destruct (dispatch_quiet triggerEvent payload st Hprint Hkind) as (lines & Hlines & ->).
    now apply only_logged. }
  destruct triggerEvent as [| |b|x|kind|xs|props];
    try (apply Hquiet; right; cbn; intros H;
         repeat destruct H as [H | H]; try discriminate H; contradiction).
  destruct (quiet_or_acting kind) as [-> | [-> | [-> | Hkind]]]; [| | |auto].
  - (* booking created *)
    destruct (safeParse payload) as [issues | data] eqn:Hv.
    { rewrite (dispatch_booking_created _ _ _ _ (storeBooking_invalid payload issues st Hv)).
      now apply booking_invalid. }
    destruct (Calcom.attendees data) as [|attendee others] eqn:Ha.
    { rewrite (dispatch_booking_created _ _ _ _ (storeBooking_no_attendee payload data st Hv Ha)).
      now apply booking_without_attendee with (data := data). }
    destruct (createLocalBooking (localBooking_input payload data attendee) (env st))
      as [[error | booking] env'] eqn:Hcall.
    + rewrite (dispatch_booking_created _ _ _ _
                 (storeBooking_failed payload data attendee others error env' st Hv Ha Hcall)).
      now apply booking_not_stored with (others := others).
    + rewrite (dispatch_booking_created _ _ _ _
                 (storeBooking_stored payload data attendee others booking env' st Hv Ha Hcall)).
      now apply booking_stored with (others := others).
  - (* no-show *)
    change (dispatch (VStr "AFTER_HOSTS_CAL_VIDEO_NO_SHOW") payload st)
      with (noShow payload st).
    destruct (getProp payload "metadata") as [error | metadata] eqn:Hm.
    { rewrite (noShow_unreadable payload error st) by now left.
      apply no_show_unreadable; [reflexivity | now left]. }
    destruct (getProp metadata "paymentId") as [error | paymentId] eqn:Hp.
    { rewrite (noShow_unreadable payload error st) by (right; now exists metadata).
      apply no_show_unreadable; [reflexivity | right; now exists metadata]. }
    destruct (toBoolean paymentId) eqn:Htruthy.
    + destruct (refundStripePaymentIntent paymentId (env st)) as [[err | []] env'] eqn:Hcall.
      * rewrite (noShow_refund_failed payload metadata paymentId st err env' Hm Hp Htruthy Hcall).
        now apply no_show_not_refunded with (metadata := metadata).
      * rewrite (noShow_refunded payload metadata paymentId st env' Hm Hp Htruthy Hcall).
        now apply no_show_refunded with (metadata := metadata).
    + rewrite (noShow_missing payload metadata paymentId st Hm Hp Htruthy).
      now apply no_show_without_payment with (metadata := metadata) (paymentId := paymentId).
  - (* meeting ended *)
    change (dispatch (VStr "MEETING_ENDED") payload st)
      with (meetingEnded (VStr "MEETING_ENDED") payload st).
    destruct (getProp payload "metadata") as [error | metadata] eqn:Hm.
    { rewrite (meetingEnded_unreadable "MEETING_ENDED" payload error st) by now left.
      apply meeting_unreadable; [reflexivity | now left]. }
    destruct (getProp metadata "mentorUserId") as [error | mentorUserId] eqn:Hu.
    { rewrite (meetingEnded_unreadable "MEETING_ENDED" payload error st)
        by (right; now exists metadata).
      apply meeting_unreadable; [reflexivity | right; now exists metadata]. }
    destruct (toBoolean mentorUserId) eqn:Htruthy.
    + destruct (getProp_total metadata "mentorUserId" "actorUserId" _ Hu) as [actorUserId Ha].
      destruct (createAnalyticsEvent (completedBooking mentorUserId actorUserId) (env st))
        as [outcome env'] eqn:Hcall.
      rewrite (meetingEnded_tracked "MEETING_ENDED" payload metadata mentorUserId
                 actorUserId st outcome env' Hm Hu Ha Htruthy Hcall).
      now apply meeting_tracked with (metadata := metadata).
    + rewrite (meetingEnded_untracked "MEETING_ENDED" payload metadata mentorUserId
                 st Hm Hu Htruthy).
      now apply meeting_without_mentor with (metadata := metadata) (mentorUserId := mentorUserId).
Qed.

Lemma POST_path (req : Request) (st : State) : PostPath req st (POST req st).
Proof.
  destruct (Nat.eq_dec (List.length (Buffer.from_utf8 (signature_of req))) 64)
    as [Hlen | Hlen].
  2:{ rewrite (POST_length_mismatch req st Hlen). now apply signature_of_wrong_length. }
  destruct (string_dec (signature_of req) (expectedSignature (text req))) as [Hauth | Hne].
  2:{ rewrite (POST_signature_mismatch req st Hlen Hne). now apply signature_wrong. }
  fold (authentic req) in Hauth.
  destruct (JSON_parse (text req)) as [err | event] eqn:Hparse.
  { rewrite (POST_authentic req st Hauth). unfold parseEvent. run. rewrite Hparse; run.
    rewrite <- app_assoc. now apply body_unparsable. }
  destruct (getProp event "triggerEvent") as [error | triggerEvent] eqn:Hkind.
  { rewrite (POST_authentic req st Hauth). unfold parseEvent, processEvent. run.
    rewrite Hparse; run. rewrite Hkind; run.
    now apply event_unreadable with (event := event). }
  destruct (getProp_total event "triggerEvent" "payload" _ Hkind) as [payload Hpayload].
  destruct (toString_throws triggerEvent) eqn:Hprint.
  { rewrite (POST_authentic req st Hauth). unfold parseEvent, processEvent. run.
    rewrite Hparse; run. rewrite Hkind; run. rewrite Hpayload; run. rewrite Hprint; run.
    rewrite <- app_assoc.
    now apply kind_unprintable with (event := event). }
  assert (Hdel : delivers req triggerEvent payload).
  { split; [exact Hauth|]. now exists event. }
  pose proof (dispatch_path triggerEvent payload (received req triggerEvent payload st) Hprint)
    as Hpath.
  destruct (dispatch triggerEvent payload (received req triggerEvent payload st))
    as [[error | returned] st2] eqn:Hrun.
  - rewrite (POST_dispatch_thrown req _ _ _ _ _ Hdel Hrun).
    now apply dispatch_threw with (payload := payload).
  - rewrite (POST_dispatch_returned req _ _ _ _ _ Hdel Hrun).
    destruct returned as [response|];
      now apply (dispatch_returned req st triggerEvent payload _ st2 Hdel Hpath).
Qed.

End PathFacts.

(** * What every run keeps *)

Section RunFacts.

Context {C : Collaborators}.

Import Js.

Lemma parses_of_app (t u : list Effect) :
  parses_of (t ++ u) = (parses_of t ++ parses_of u)%list.
Proof. apply flat_map_app. Qed.

Lemma calls_of_app (t u : list Effect) :
  calls_of (t ++ u) = (calls_of t + calls_of u)%nat.
Proof.
  unfold calls_of.
  rewrite bookings_of_app, refunds_of_app, analytics_of_app, !length_app. lia.
Qed.

Lemma info_lines_quiet (lines : list Effect) :
  Forall info_line lines ->
  parses_of lines = [] /\ calls_of lines = 0%nat /\ existsb alarm lines = false.
Proof.
  induction 1 as [|e lines [args ->] _ (Hp & Hc & Ha)]; [now repeat split|].
  repeat split; cbn; assumption.
Qed.

(** What a run of the dispatch adds to the trace, whatever path it takes:
    no parse, at most one call, and the environment moves only with a call.
    A response it returns is 201, 400 or 500, and an alarm was logged exactly
    when that response is an error; without a response, no alarm. *)
Lemma dispatch_digest (triggerEvent payload : value) (st st2 : State)
    (result : thrown + option Response) :
  DispatchPath triggerEvent payload st (result, st2) ->
  exists added,
    trace st2 = (trace st ++ added)%list /\
    parses_of added = [] /\
    (calls_of added <= 1)%nat /\
    (calls_of added = 0%nat -> env st2 = env st) /\
    match result with
    | inr (Some response) =>
        In (status response) [201; 400; 500] /\
        (400 <= status response <-> existsb alarm added = true)
    | _ => existsb alarm added = false
    end.
Proof.
  inversion 1; subst.
  all: try (eexists; split; [cbn [trace record]; reflexivity|]; cbn;
            repeat split; auto; try lia; try discriminate; intros; lia).
  - (* the no-show read threw: nothing was added *)
    exists []. rewrite app_nil_r. cbn. repeat split; auto.
  - (* meeting ended, with the analytics call *)
    exists (meeting_ended_logs (VStr "MEETING_ENDED") payload ++
            [CreateAnalyticsEvent (completedBooking mentorUserId actorUserId)])%list.
    split; [reflexivity|]. cbn. repeat split; auto; try discriminate.
    destruct outcome; reflexivity.
  - (* only logged *)
    destruct (info_lines_quiet lines) as (Hp & Hc & Ha); [assumption|].
    exists lines. cbn [trace env]. rewrite Hp, Hc, Ha. repeat split; auto.
Qed.

End RunFacts.

(** * Properties of every run *)

Section RunProperties.

Context {C : Collaborators}.

Import Js.

(** Case analysis of a run of the handler along its paths *)
Ltac by_paths req st :=
  generalize (POST_path req st); generalize (POST req st);
  let out := fresh "out" in
  let Hpath := fresh "Hpath" in
  intros out Hpath; destruct Hpath.

Lemma getProp_throws (v : value) (k : string) (e : thrown) :
  getProp v k = inl e -> v = VUndefined \/ v = VNull.
Proof. destruct v; cbn; try discriminate; auto. Qed.

Lemma authentic_length (req : Request) :
  authentic req -> List.length (Buffer.from_utf8 (signature_of req)) = 64%nat.
Proof. intros ->. apply expectedSignature_bytes. Qed.

(** X1.  The body is handed to [JSON.parse] exactly when the request carries
    the expected signature, and then once: no run parses the body of a
    request whose signature is wrong, whatever its length. *)
Theorem POST_parses_exactly_when_authentic (req : Request) (st : State) :
  (authentic req ->
   parses_of (trace (snd (POST req st))) = (parses_of (trace st) ++ [text req])%list) /\
  (~ authentic req ->
   parses_of (trace (snd (POST req st))) = parses_of (trace st)).
Proof.
  by_paths req st; cbn [snd trace record].
  - split; [|reflexivity]. intros Hauth. apply authentic_length in Hauth. contradiction.
  - split; [intros Hauth; contradiction|]. intros _.
    rewrite parses_of_app. cbn. now rewrite app_nil_r.
  - split; [|intros Hno; contradiction]. intros _. now rewrite parses_of_app.
  - split; [|intros Hno; contradiction]. intros _. now rewrite parses_of_app.
  - split; [|intros Hno; contradiction]. intros _. now rewrite parses_of_app.
  - split; [|intros Hno; destruct H as [Hauth _]; contradiction]. intros _.
    destruct (dispatch_digest _ _ _ _ _ H0) as (added & -> & Hparse & _).
    cbn [trace received]. rewrite !parses_of_app, Hparse. cbn. now rewrite app_nil_r.
  - split; [|intros Hno; destruct H as [Hauth _]; contradiction]. intros _.
    destruct (dispatch_digest _ _ _ _ _ H0) as (added & -> & Hparse & _).
    cbn [trace received]. unfold dispatch_failure_log.
    rewrite !parses_of_app, Hparse. cbn. now rewrite !app_nil_r.
Qed.

(** X4.  The handler throws in three situations only, each with its own
    error.  The signature is not 64 bytes long: the comparison throws its
    [RangeError] and nothing was parsed or logged.  The body is the JSON text
    of [null]: reading [triggerEvent] from it throws a [TypeError], after
    the parse and before any line.  The kind of the event cannot be written
    into a line (an object with a [toString] entry, or an array that holds
    one): the template literal throws a [TypeError] after the first line,
    outside every [try].  In every other run the handler answers.
    [JSON.parse] returns no [undefined], which is assumed of the parser. *)
Theorem POST_throws_only (req : Request) (st st' : State) (e : thrown) :
  JSON_parse (text req) <> inr VUndefined ->
  POST req st = (inl e, st') ->
  (List.length (Buffer.from_utf8 (signature_of req)) <> 64%nat /\
   e = length_error /\ st' = st) \/
  (authentic req /\
   JSON_parse (text req) = inr VNull /\
   e = TypeError "Cannot read properties of null (reading 'triggerEvent')" /\
   st' = record (JsonParse (text req)) st) \/
  (authentic req /\
   (exists event triggerEvent payload,
      JSON_parse (text req) = inr event /\
      getProp event "triggerEvent" = inr triggerEvent /\
      getProp event "payload" = inr payload /\
      toString_throws triggerEvent = true /\
      st' = {| env := env st;
               trace := trace st ++
                        [JsonParse (text req);
                         received_object_log triggerEvent payload] |}) /\
   e = conversion_error).
Proof.
  intros Hdefined.
  by_paths req st; intros Hout; try discriminate Hout.
  - injection Hout as <- <-. now left.
  - injection Hout as <- <-. right; left. split; [assumption|].
    destruct (getProp_throws _ _ _ H1) as [-> | ->]; [contradiction|].
    cbn in H1. injection H1 as <-. now repeat split.
  - injection Hout as <- <-. right; right. split; [assumption|]. split; [|reflexivity].
    exists event, triggerEvent, payload. now repeat split.
Qed.

(** X5.  Whatever the request, a response of the handler has status 200,
    201, 400 or 500. *)
Theorem POST_status_codes (req : Request) (st st' : State) (response : Response) :
  POST req st = (inr response, st') ->
  In (status response) [200; 201; 400; 500].
Proof.
  by_paths req st; intros Hout; try discriminate Hout; injection Hout as <- <-; cbn; auto.
  destruct (dispatch_digest _ _ _ _ _ H0) as (added & _ & _ & _ & _ & Hresponse).
  destruct returned as [response|]; cbn; [|auto].
  destruct Hresponse as [[<- | [<- | [<- | []]]] _]; auto.
Qed.

(** X6.  A 201 is answered only for a booking-created event whose payload
    passed validation and whose booking the store took: the body is the
    record the store returned, that one booking was handed to the store, and
    the environment is the one the store left.  No other response carries a
    booking. *)
Theorem POST_created_means_stored (req : Request) (st st' : State) (response : Response) :
  POST req st = (inr response, st') ->
  (status response = 201 <-> exists booking, body response = BookingBody booking) /\
  (status response = 201 ->
   exists payload data attendee others booking,
     delivers req (VStr "BOOKING_CREATED") payload /\
     safeParse payload = inr data /\
     Calcom.attendees data = attendee :: others /\
     createLocalBooking (localBooking_input payload data attendee) (env st)
       = (inr booking, env st') /\
     body response = BookingBody booking /\
     bookings_of (trace st') =
       (bookings_of (trace st) ++ [localBooking_input payload data attendee])%list).
Proof.
  by_paths req st; intros Hout; try discriminate Hout; injection Hout as <- <-.
  1, 2, 4: cbn; split; [split; [discriminate | intros [b Hb]; discriminate Hb]
                       | discriminate].
  inversion H0; subst; cbn [status body env trace received].
  all: try (split; [split; [discriminate | intros [b Hb]; discriminate Hb] | discriminate]).
  - (* stored *)
    split; [split; [intros _; now exists booking | reflexivity]|]. intros _.
    exists payload, data, attendee, others, booking.
    split; [assumption|]. repeat split; try assumption.
    rewrite !bookings_of_app. cbn. now rewrite !app_nil_r.
  - (* meeting ended *)
    destruct outcome; [discriminate|]. cbn in *.
    match goal with Hr : inr None = inr ?r |- _ => injection Hr as <- end.
    cbn. split; [split; [discriminate | intros [b Hb]; discriminate Hb] | discriminate].
Qed.

(** X7.  A run makes at most one call among the store, the refund action and
    the analytics query, and the environment changes only through such a
    call: a run without one leaves the environment as it found it. *)
Theorem POST_at_most_one_call (req : Request) (st : State) :
  (calls_of (trace (snd (POST req st))) <= calls_of (trace st) + 1)%nat /\
  (calls_of (trace (snd (POST req st))) = calls_of (trace st) ->
   env (snd (POST req st)) = env st).
Proof.
  by_paths req st; cbn [snd trace env record].
  1, 2, 3, 4, 5: rewrite ?calls_of_app; cbn; split; [lia | reflexivity].
  all: destruct (dispatch_digest _ _ _ _ _ H0) as (added & Htrace & _ & Hone & Hframe & _);
    rewrite ?Htrace; cbn [received trace env] in *;
    rewrite !calls_of_app; cbn; split; [lia|];
    intros Hsame; apply Hframe; lia.
Qed.

(** X8.  No failure goes unlogged and no success raises an alarm: a response
    is an error (status 400 or above) exactly when the run logged a line
    with [console.warn] or [console.error]. *)
Theorem POST_failures_are_logged (req : Request) (st st' : State) (response : Response) :
  POST req st = (inr response, st') ->
  exists added,
    trace st' = (trace st ++ added)%list /\
    (400 <= status response <-> existsb alarm added = true).
Proof.
  by_paths req st; intros Hout; try discriminate Hout; injection Hout as <- <-.
  - exists [invalid_signature_log]. split; [reflexivity|]. cbn. split; [auto | lia].
  - eexists. split; [reflexivity|]. cbn. split; [auto | lia].
  - destruct (dispatch_digest _ _ _ _ _ H0) as (added & -> & _ & _ & _ & Hresponse).
    exists (JsonParse (text req) :: received_logs triggerEvent payload ++ added)%list.
    cbn [received trace]. split; [now rewrite <- app_assoc|].
    cbn [existsb alarm received_logs app orb].
    destruct returned as [response|].
    + exact (proj2 Hresponse).
    + rewrite Hresponse. cbn. split; [lia | discriminate].
  - destruct (dispatch_digest _ _ _ _ _ H0) as (added & Htrace & _).
    exists (JsonParse (text req) :: received_logs triggerEvent payload ++ added
            ++ [dispatch_failure_log triggerEvent error])%list.
    cbn [record trace]. rewrite Htrace. cbn [received trace].
    split; [now rewrite <- !app_assoc|].
    cbn [existsb alarm received_logs app orb]. rewrite existsb_app. cbn.
    rewrite orb_true_r. split; [auto | lia].
Qed.

End RunProperties.

(** * More of the cases *)

Section CaseProperties.

Context {C : Collaborators}.

Import Js.

(** X9.  A validated booking payload whose list of attendees is empty: the
    read of the first attendee's name throws inside [storeBooking], whose
    catch answers 500 [{error: 'Failed to process booking'}] and logs the raw
    payload; the store is never called and the world is as it was. *)
Theorem POST_booking_without_attendee (req : Request) (payload : value)
    (data : Calcom.CalcomBookingPayload) (st : State) :
  delivers req (VStr "BOOKING_CREATED") payload ->
  safeParse payload = inr data ->
  Calcom.attendees data = [] ->
  fst (POST req st) =
    inr {| status := 500; body := error_body "Failed to process booking" |} /\
  untouched st (snd (POST req st)) /\
  In (Console ErrorLevel
        [Str "❌ Failed to store booking for Cal.com event:";
         Str "Cannot read properties of undefined (reading 'name')"])
     (trace (snd (POST req st))) /\
  In (Console ErrorLevel [Str "Raw payload:"; JsonPretty payload])
     (trace (snd (POST req st))).
Proof.
  intros Hdel Hv Ha.
  rewrite (POST_runs_storeBooking req payload _ st _ Hdel
             (storeBooking_no_attendee payload data _ Hv Ha)).
  cbn [fst snd trace env received]. split; [reflexivity|]. split; [|split].
  - unfold untouched. cbn [env trace].
    rewrite !bookings_of_app, !refunds_of_app, !analytics_of_app. cbn.
    now rewrite !app_nil_r.
  - apply in_or_app. right. cbn. auto.
  - apply in_or_app. right. cbn. auto.
Qed.

(** X10.  A no-show event with a payment id whose refund goes through is
    acknowledged with 200 [{received: true}]: the refund action was called
    once with that id, nothing was stored or tracked, no alarm was logged,
    and the environment is the one the refund left. *)
Theorem POST_refund_acknowledged (req : Request) (payload metadata paymentId : value)
    (env' : Env) (st : State) :
  delivers req (VStr "AFTER_HOSTS_CAL_VIDEO_NO_SHOW") payload ->
  getProp payload "metadata" = inr metadata ->
  getProp metadata "paymentId" = inr paymentId ->
  toBoolean paymentId = true ->
  refundStripePaymentIntent paymentId (env st) = (inr tt, env') ->
  POST req st =
  (inr {| status := 200; body := received_body |},
   {| env := env';
      trace := trace st ++
               JsonParse (text req)
               :: received_logs (VStr "AFTER_HOSTS_CAL_VIDEO_NO_SHOW") payload
               ++ [RefundStripePaymentIntent paymentId] |}).
Proof.
  intros Hdel Hm Hp Htruthy Hcall.
  set (st1 := received req (VStr "AFTER_HOSTS_CAL_VIDEO_NO_SHOW") payload st).
  assert (Hrun : dispatch (VStr "AFTER_HOSTS_CAL_VIDEO_NO_SHOW") payload st1
                 = (inr None,
                    {| env := env';
                       trace := trace st1 ++ [RefundStripePaymentIntent paymentId] |})).
  { change (dispatch (VStr "AFTER_HOSTS_CAL_VIDEO_NO_SHOW") payload st1)
      with (noShow payload st1).
    exact (noShow_refunded payload metadata paymentId st1 env' Hm Hp Htruthy Hcall). }
  rewrite (POST_dispatch_returned req _ payload None st _ Hdel Hrun).
  unfold st1. cbn [finish ret received trace]. now rewrite <- app_assoc.
Qed.

(** X11.  A meeting-ended event with a mentor user id whose analytics call
    goes through is acknowledged with 200 [{received: true}]; the environment
    is the one that call left. *)
Theorem POST_analytics_acknowledged
    (req : Request) (payload metadata mentorUserId actorUserId : value)
    (env' : Env) (st : State) :
  delivers req (VStr "MEETING_ENDED") payload ->
  getProp payload "metadata" = inr metadata ->
  getProp metadata "mentorUserId" = inr mentorUserId ->
  getProp metadata "actorUserId" = inr actorUserId ->
  toBoolean mentorUserId = true ->
  createAnalyticsEvent (completedBooking mentorUserId actorUserId) (env st) = (inr tt, env') ->
  POST req st =
  (inr {| status := 200; body := received_body |},
   {| env := env';
      trace := trace st ++
               JsonParse (text req)
               :: received_logs (VStr "MEETING_ENDED") payload
               ++ meeting_ended_logs (VStr "MEETING_ENDED") payload
               ++ [CreateAnalyticsEvent (completedBooking mentorUserId actorUserId)] |}).
Proof.
  intros Hdel Hm Hu Ha Htruthy Hcall.
  set (st1 := received req (VStr "MEETING_ENDED") payload st).
  pose proof (meetingEnded_tracked "MEETING_ENDED" payload metadata mentorUserId
                actorUserId st1 (inr tt) env' Hm Hu Ha Htruthy Hcall) as Hrun.
  change (meetingEnded (VStr "MEETING_ENDED") payload st1)
    with (dispatch (VStr "MEETING_ENDED") payload st1) in Hrun.
  rewrite (POST_dispatch_returned req _ payload None st _ Hdel Hrun).
  unfold st1. cbn [finish ret received trace]. now rewrite <- app_assoc.
Qed.

(** X12.  A no-show or meeting-ended event whose payload, or whose
    [payload.metadata], is missing or [null]: the property read throws, the
    catch of the dispatch answers the generic 500, and neither a refund nor
    an analytics call was made. *)
Theorem POST_unreadable_metadata (req : Request) (triggerEvent payload : value) (st : State) :
  delivers req triggerEvent payload ->
  triggerEvent = VStr "AFTER_HOSTS_CAL_VIDEO_NO_SHOW" \/ triggerEvent = VStr "MEETING_ENDED" ->
  payload = VUndefined \/ payload = VNull \/
  getProp payload "metadata" = inr VUndefined \/ getProp payload "metadata" = inr VNull ->
  fst (POST req st) =
    inr {| status := 500; body := error_body "Failed to process webhook" |} /\
  untouched st (snd (POST req st)).
Proof.
  intros Hdel Hkind Hmissing.
  set (st1 := received req triggerEvent payload st).
  assert (Hthrows : forall k, exists error,
            getProp payload "metadata" = inl error \/
            exists metadata,
              getProp payload "metadata" = inr metadata /\ getProp metadata k = inl error).
  { intros k. destruct Hmissing as [-> | [-> | [Hm | Hm]]].
    - eexists. left. reflexivity.
    - eexists. left. reflexivity.
    - eexists. right. exists VUndefined. split; [exact Hm | reflexivity].
    - eexists. right. exists VNull. split; [exact Hm | reflexivity]. }
  assert (Hrun : exists error lines,
            Forall info_line lines /\
            dispatch triggerEvent payload st1
            = (inl error, {| env := env st1; trace := trace st1 ++ lines |})).
  { destruct Hkind as [-> | ->].
    - destruct (Hthrows "paymentId") as [error Hcase]. exists error, [].
      split; [constructor|]. rewrite app_nil_r.
      change (dispatch (VStr "AFTER_HOSTS_CAL_VIDEO_NO_SHOW") payload st1)
        with (noShow payload st1).
      rewrite (noShow_unreadable payload error st1 Hcase). now destruct st1.
    - destruct (Hthrows "mentorUserId") as [error Hcase].
      exists error, (meeting_ended_logs (VStr "MEETING_ENDED") payload).
      split; [repeat constructor; eexists; reflexivity|].
      change (dispatch (VStr "MEETING_ENDED") payload st1)
        with (meetingEnded (VStr "MEETING_ENDED") payload st1).
      exact (meetingEnded_unreadable "MEETING_ENDED" payload error st1 Hcase). }
  destruct Hrun as (error & lines & Hlines & Hrun).
  rewrite (POST_dispatch_thrown req _ payload error st _ Hdel Hrun).
  cbn [fst snd]. split; [reflexivity|].
  destruct (info_lines_silent lines Hlines) as (Hb & Hr & Ha).
  unfold untouched, st1. cbn [env trace record received].
  rewrite !bookings_of_app, !refunds_of_app, !analytics_of_app, Hb, Hr, Ha. cbn.
  now rewrite !app_nil_r.
Qed.

(** The bookings a run hands to the store, for a validated payload with an
    attendee, from whatever state *)
Lemma POST_hands_over (req : Request) (payload : value)
    (data : Calcom.CalcomBookingPayload) (attendee : Calcom.Attendee)
    (others : list Calcom.Attendee) (st : State) :
  delivers req (VStr "BOOKING_CREATED") payload ->
  safeParse payload = inr data ->
  Calcom.attendees data = attendee :: others ->
  bookings_of (trace (snd (POST req st))) =
    (bookings_of (trace st) ++ [localBooking_input payload data attendee])%list.
Proof.
  intros Hdel Hv Ha.
  set (st1 := received req (VStr "BOOKING_CREATED") payload st).
  destruct (createLocalBooking (localBooking_input payload data attendee) (env st))
    as [[error | booking] env'] eqn:Hcall.
  - rewrite (POST_runs_storeBooking req payload _ st _ Hdel
               (storeBooking_failed payload data attendee others error env' st1 Hv Ha Hcall)).
    unfold st1. cbn [snd trace received].
    rewrite !bookings_of_app. cbn. now rewrite !app_nil_r.
  - rewrite (POST_runs_storeBooking req payload _ st _ Hdel
               (storeBooking_stored payload data attendee others booking env' st1 Hv Ha Hcall)).
    unfold st1. cbn [snd trace received].
    rewrite !bookings_of_app. cbn. now rewrite !app_nil_r.
Qed.

(** X13.  The handler does not deduplicate: a booking-created delivery that
    arrives twice hands the same booking to the store twice, whatever the
    store answered the first time. *)
Theorem POST_redelivery_stores_again (req : Request) (payload : value)
    (data : Calcom.CalcomBookingPayload) (attendee : Calcom.Attendee)
    (others : list Calcom.Attendee) (st : State) :
  delivers req (VStr "BOOKING_CREATED") payload ->
  safeParse payload = inr data ->
  Calcom.attendees data = attendee :: others ->
  bookings_of (trace (snd (POST req (snd (POST req st))))) =
    (bookings_of (trace st)
     ++ [localBooking_input payload data attendee;
         localBooking_input payload data attendee])%list.
Proof.
  intros Hdel Hv Ha.
  rewrite (POST_hands_over req payload data attendee others _ Hdel Hv Ha).
  rewrite (POST_hands_over req payload data attendee others st Hdel Hv Ha).
  now rewrite <- app_assoc.
Qed.

End CaseProperties.

(** * The edges of the intake *)

Section IntakeProperties.

Context {C : Collaborators}.

Import Js.

(** X2.  A signature that has the length of the digest but is not the
    digest is turned down: the answer is 400 [{error: 'Invalid signature'}],
    the one thing the handler did is log the failure with [console.error],
    and the world is as it was. *)
Theorem POST_wrong_signature_of_digest_length (req : Request) (st : State) :
  List.length (Buffer.from_utf8 (signature_of req)) = 64%nat ->
  signature_of req <> expectedSignature (text req) ->
  POST req st =
    (inr {| status := 400; body := error_body "Invalid signature" |},
     {| env := env st;
        trace := trace st ++
                 [Console ErrorLevel
                    [Str "❌ Webhook signature verification failed for Cal.com payload"]] |}) /\
  untouched st (snd (POST req st)).
Proof.
  intros Hlen Hne. rewrite (POST_signature_mismatch req st Hlen Hne).
  split; [reflexivity|].
  unfold untouched, invalid_signature_log. cbn [snd env trace record].
  rewrite !bookings_of_app, !refunds_of_app, !analytics_of_app. cbn.
  now rewrite !app_nil_r.
Qed.

(** X3.  A signed body that is JSON but not an object.  The text [null]
    makes the handler throw a [TypeError] at the first property read, outside
    every try block, after the parse and before any log line.  Any other
    value that is not an object (a number, a string, a boolean, an array) has
    no [triggerEvent]: it is taken for an unhandled event and acknowledged
    with 200, the world untouched. *)
Theorem POST_body_not_an_object (req : Request) (event : value) (st : State) :
  authentic req ->
  JSON_parse (text req) = inr event ->
  (forall props, event <> VObj props) ->
  event <> VUndefined ->
  (event = VNull ->
   POST req st =
     (inl (TypeError "Cannot read properties of null (reading 'triggerEvent')"),
      {| env := env st; trace := trace st ++ [JsonParse (text req)] |})) /\
  (event <> VNull ->
   fst (POST req st) = inr {| status := 200; body := received_body |} /\
   untouched st (snd (POST req st))).
Proof.
  intros Hauth Hparse Hnot_object Hdefined. split.
  - intros ->. exact (POST_null_event_throws req st Hauth Hparse).
  - intros Hnot_null.
    assert (Hdel : delivers req VUndefined VUndefined).
    { split; [exact Hauth|]. exists event. split; [exact Hparse|].
      destruct event as [| |b|x|s|xs|props]; try contradiction;
        try (repeat split; reflexivity).
      exfalso. now apply (Hnot_object props). }
    rewrite (POST_dispatch_returned req VUndefined VUndefined None st _ Hdel
               (unhandled_run VUndefined _ eq_refl)).
    cbn [finish ret fst snd]. split; [reflexivity|].
    unfold untouched. cbn [env trace received].
    rewrite !bookings_of_app, !refunds_of_app, !analytics_of_app. cbn.
    now rewrite !app_nil_r.
Qed.

End IntakeProperties.

(** * What a response tells *)

Section ResponseProperties.

Context {C : Collaborators}.

Import Js.

(** X14.  The body of a response is one of three: [{received: true}] with
    200, the stored booking with 201, or [{error: m}] with 400 or 500, where
    [m] is one of the seven messages written in the source.  What a
    collaborator threw is logged, never sent back. *)
Theorem POST_response_bodies (req : Request) (st st' : State) (response : Response) :
  POST req st = (inr response, st') ->
  (status response = 200 /\ body response = received_body) \/
  (status response = 201 /\ exists booking, body response = BookingBody booking) \/
  (400 <= status response /\
   exists message, In message error_messages /\ body response = error_body message).
Proof.
  generalize (POST_path req st); generalize (POST req st).
  intros out Hpath; destruct Hpath; intros Hout; try discriminate Hout;
    injection Hout as <- <-.
  1, 2, 4: right; right; cbn; split; [lia|]; eexists; split; [|reflexivity]; cbn; tauto.
  inversion H0; subst; cbn [status body].
  all: try (right; right; split; [lia|]; eexists; split; [|reflexivity]; cbn; tauto).
  all: try (left; split; reflexivity).
  - right. left. split; [reflexivity|]. now exists booking.
  - destruct outcome; [discriminate|].
    match goal with Hr : inr None = inr ?r |- _ => injection Hr as <- end.
    left. split; reflexivity.
Qed.

(** X15.  The status of the answer to a booking-created delivery tells what
    happened, both ways: 400 exactly when the schema rejected the payload,
    201 exactly when the store returned the booking, and 500 exactly when the
    payload was valid but had no attendee or the store threw. *)
Theorem POST_booking_created_verdict (req : Request) (payload : value)
    (st st' : State) (response : Response) :
  delivers req (VStr "BOOKING_CREATED") payload ->
  POST req st = (inr response, st') ->
  (status response = 400 <-> exists issues, safeParse payload = inl issues) /\
  (status response = 201 <->
   exists data attendee others booking env',
     safeParse payload = inr data /\
     Calcom.attendees data = attendee :: others /\
     createLocalBooking (localBooking_input payload data attendee) (env st)
       = (inr booking, env')) /\
  (status response = 500 <->
   exists data,
     safeParse payload = inr data /\
     (Calcom.attendees data = [] \/
      exists attendee others error env',
        Calcom.attendees data = attendee :: others /\
        createLocalBooking (localBooking_input payload data attendee) (env st)
          = (inl error, env'))).
Proof.
  intros Hdel Hout.
  set (st1 := received req (VStr "BOOKING_CREATED") payload st).
  destruct (safeParse payload) as [issues | data] eqn:Hv.
  { rewrite (POST_runs_storeBooking req payload _ st _ Hdel
               (storeBooking_invalid payload issues st1 Hv)) in Hout.
    injection Hout as <- <-. cbn [status]. split; [|split].
    - split; [intros _; now exists issues | reflexivity].
    - split; [discriminate | intros (d & a & o & b & e & Hd & _); discriminate Hd].
    - split; [discriminate | intros (d & Hd & _); discriminate Hd]. }
  destruct (Calcom.attendees data) as [|attendee others] eqn:Ha.
  { rewrite (POST_runs_storeBooking req payload _ st _ Hdel
               (storeBooking_no_attendee payload data st1 Hv Ha)) in Hout.
    injection Hout as <- <-. cbn [status]. split; [|split].
    - split; [discriminate | intros (i & Hi); discriminate Hi].
    - split; [discriminate|].
      intros (d & a & o & b & e & Hd & Hda & _). injection Hd as <-.
      rewrite Ha in Hda. discriminate Hda.
    - split; [|reflexivity]. intros _. exists data. split; [reflexivity | now left]. }
  destruct (createLocalBooking (localBooking_input payload data attendee) (env st))
    as [[error | booking] env'] eqn:Hcall.
  - rewrite (POST_runs_storeBooking req payload _ st _ Hdel
               (storeBooking_failed payload data attendee others error env' st1 Hv Ha Hcall))
      in Hout.
    injection Hout as <- <-. cbn [status]. split; [|split].
    + split; [discriminate | intros (i & Hi); discriminate Hi].
    + split; [discriminate|].
      intros (d & a & o & b & e & Hd & Hda & Hc). injection Hd as <-.
      rewrite Ha in Hda. injection Hda as <- <-. rewrite Hcall in Hc. discriminate Hc.
    + split; [|reflexivity]. intros _. exists data. split; [reflexivity|]. right.
      exists attendee, others, error, env'. now split.
  - rewrite (POST_runs_storeBooking req payload _ st _ Hdel
               (storeBooking_stored payload data attendee others booking env' st1 Hv Ha Hcall))
      in Hout.
    injection Hout as <- <-. cbn [status]. split; [|split].
    + split; [discriminate | intros (i & Hi); discriminate Hi].
    + split; [|reflexivity]. intros _. exists data, attendee, others, booking, env'.
      now repeat split.
    + split; [discriminate|].
      intros (d & Hd & [Hda | (a & o & e & en & Hda & Hc)]); injection Hd as <-.
      * rewrite Ha in Hda. discriminate Hda.
      * rewrite Ha in Hda. injection Hda as <- <-. rewrite Hcall in Hc. discriminate Hc.
Qed.

End ResponseProperties.

(** * More runs in the demo worlds *)

Lemma POST_wrong_signature_of_digest_length_witness :
  fst (POST (Demo.with_signature
               "0000000000000000000000000000000000000000000000000000000000000000" "{}")
            (Demo.start Demo.up))
  = inr {| status := 400; body := error_body "Invalid signature" |}.
Proof.
  destruct (POST_wrong_signature_of_digest_length (C := Demo.collaborators)
              (Demo.with_signature
                 "0000000000000000000000000000000000000000000000000000000000000000" "{}")
              (Demo.start Demo.up)) as [Hrun _].
  - reflexivity.
  - vm_compute. discriminate.
  - now rewrite Hrun.
Defined.

Lemma POST_body_not_an_object_witness :
  POST (Demo.signed Js.VNull) (Demo.start Demo.up) =
  (inl (Js.TypeError "Cannot read properties of null (reading 'triggerEvent')"),
   {| env := Demo.up; trace := [JsonParse "null"] |}).
Proof.
  destruct (POST_body_not_an_object (C := Demo.collaborators)
              (Demo.signed Js.VNull) Js.VNull (Demo.start Demo.up)) as [Hnull _].
  - reflexivity.
  - reflexivity.
  - discriminate.
  - discriminate.
  - exact (Hnull eq_refl).
Defined.

Lemma POST_throws_only_witness :
  fst (POST (C := Lab.collaborators)
         (Demo.signed Lab.event_of_unprintable_kind) (Lab.start Demo.up))
    = inl Js.conversion_error /\
  exists triggerEvent,
    Js.getProp Lab.event_of_unprintable_kind "triggerEvent" = inr triggerEvent /\
    Js.toString_throws triggerEvent = true.
Proof.
  split; [reflexivity|].
  destruct (POST_throws_only (C := Lab.collaborators)
              (Demo.signed Lab.event_of_unprintable_kind) (Lab.start Demo.up)
              (snd (POST (C := Lab.collaborators)
                      (Demo.signed Lab.event_of_unprintable_kind) (Lab.start Demo.up)))
              Js.conversion_error)
    as [(_ & Herror & _) | [(_ & _ & Herror & _) | (_ & Hkind & _)]].
  - intros Hparse. discriminate Hparse.
  - reflexivity.
  - discriminate Herror.
  - discriminate Herror.
  - destruct Hkind as (event & triggerEvent & payload & Hparse & Hkind & _ & Hthrows & _).
    injection Hparse as <-. now exists triggerEvent.
Defined.

Lemma POST_status_codes_witness :
  fst (POST (Demo.signed Demo.malformed_booking) (Demo.start Demo.up))
    = inr {| status := 400; body := error_body "Invalid booking payload" |} /\
  In (status {| status := 400; body := error_body "Invalid booking payload" |})
     [200; 201; 400; 500].
Proof.
  split; [reflexivity|].
  apply (POST_status_codes (C := Demo.collaborators)
           (Demo.signed Demo.malformed_booking) (Demo.start Demo.up)
           (snd (POST (Demo.signed Demo.malformed_booking) (Demo.start Demo.up)))).
  reflexivity.
Defined.

Lemma POST_created_means_stored_witness :
  fst (POST (Demo.signed Demo.booking_created) (Demo.start Demo.up))
    = inr {| status := 201;
             body := BookingBody
                       (1, localBooking_input Demo.booking_payload Demo.booking_data
                             Demo.booking_attendee) |} /\
  exists payload data attendee,
    safeParse payload = inr data /\
    bookings_of (trace (snd (POST (Demo.signed Demo.booking_created) (Demo.start Demo.up))))
      = [localBooking_input payload data attendee].
Proof.
  split; [reflexivity|].
  destruct (POST_created_means_stored (C := Demo.collaborators)
              (Demo.signed Demo.booking_created) (Demo.start Demo.up)
              (snd (POST (Demo.signed Demo.booking_created) (Demo.start Demo.up)))
              {| status := 201;
                 body := BookingBody
                           ((1, localBooking_input Demo.booking_payload Demo.booking_data
                                  Demo.booking_attendee)
                            : @LocalBooking Demo.collaborators) |})
    as [_ Hstored].
  - reflexivity.
  - destruct (Hstored eq_refl)
      as (payload & data & attendee & others & booking & _ & Hv & _ & _ & _ & Hbookings).
    exists payload, data, attendee. split; [exact Hv | exact Hbookings].
Defined.

Lemma POST_failures_are_logged_witness :
  fst (POST (Demo.signed Demo.booking_created) (Demo.start Demo.broken))
    = inr {| status := 500; body := error_body "Failed to process booking" |} /\
  existsb alarm
    (trace (snd (POST (Demo.signed Demo.booking_created) (Demo.start Demo.broken))))
    = true.
Proof.
  split; [reflexivity|].
  destruct (POST_failures_are_logged (C := Demo.collaborators)
              (Demo.signed Demo.booking_created) (Demo.start Demo.broken)
              (snd (POST (Demo.signed Demo.booking_created) (Demo.start Demo.broken)))
              {| status := 500; body := error_body "Failed to process booking" |})
    as (added & Htrace & Hiff).
  - reflexivity.
  - rewrite Htrace. apply Hiff. cbn. lia.
Defined.

Lemma POST_booking_without_attendee_witness :
  fst (POST (C := Lab.collaborators)
         (Demo.signed Lab.booking_without_attendees) (Lab.start Demo.up))
  = inr {| status := 500; body := error_body "Failed to process booking" |} /\
  untouched (Lab.start Demo.up)
    (snd (POST (C := Lab.collaborators)
            (Demo.signed Lab.booking_without_attendees) (Lab.start Demo.up))).
Proof.
  destruct (POST_booking_without_attendee (C := Lab.collaborators)
              (Demo.signed Lab.booking_without_attendees)
              Lab.payload_without_attendees Lab.data_without_attendees
              (Lab.start Demo.up)) as (Hresponse & Hquiet & _).
  - split; [reflexivity|].
    exists Lab.booking_without_attendees. repeat split; reflexivity.
  - reflexivity.
  - reflexivity.
  - split; [exact Hresponse | exact Hquiet].
Defined.

Lemma POST_refund_acknowledged_witness :
  fst (POST (Demo.signed Demo.no_show_paid) (Demo.start Demo.up))
  = inr {| status := 200; body := received_body |} /\
  Demo.refunded (env (snd (POST (Demo.signed Demo.no_show_paid) (Demo.start Demo.up))))
  = [Js.VStr "pi_9"].
Proof.
  rewrite (POST_refund_acknowledged (C := Demo.collaborators)
             (Demo.signed Demo.no_show_paid)
             (Js.VObj [("metadata", Js.VObj [("paymentId", Js.VStr "pi_9")])])
             (Js.VObj [("paymentId", Js.VStr "pi_9")]) (Js.VStr "pi_9")
             {| Demo.down := false; Demo.rows := [];
                Demo.refunded := [Js.VStr "pi_9"]; Demo.events := [] |}
             (Demo.start Demo.up)
             ltac:(demo_delivers Demo.no_show_paid) eq_refl eq_refl eq_refl eq_refl).
  split; reflexivity.
Defined.

Lemma POST_analytics_acknowledged_witness :
  fst (POST (Demo.signed Demo.meeting_ended) (Demo.start Demo.up))
  = inr {| status := 200; body := received_body |}.
Proof.
  rewrite (POST_analytics_acknowledged (C := Demo.collaborators)
             (Demo.signed Demo.meeting_ended)
             (Js.VObj [("metadata",
                        Js.VObj [("mentorUserId", Js.VStr "mentor-7");
                                 ("actorUserId", Js.VStr "student-3")])])
             (Js.VObj [("mentorUserId", Js.VStr "mentor-7");
                       ("actorUserId", Js.VStr "student-3")])
             (Js.VStr "mentor-7") (Js.VStr "student-3")
             {| Demo.down := false; Demo.rows := []; Demo.refunded := [];
                Demo.events := [completedBooking (Js.VStr "mentor-7") (Js.VStr "student-3")] |}
             (Demo.start Demo.up)
             ltac:(demo_delivers Demo.meeting_ended) eq_refl eq_refl eq_refl eq_refl eq_refl).
  reflexivity.
Defined.

Lemma POST_unreadable_metadata_witness :
  fst (POST (Demo.signed Demo.meeting_ended_no_metadata) (Demo.start Demo.up))
  = inr {| status := 500; body := error_body "Failed to process webhook" |} /\
  untouched (Demo.start Demo.up)
    (snd (POST (Demo.signed Demo.meeting_ended_no_metadata) (Demo.start Demo.up))).
Proof.
  apply (POST_unreadable_metadata (C := Demo.collaborators)
           (Demo.signed Demo.meeting_ended_no_metadata)
           (Js.VStr "MEETING_ENDED") (Js.VObj []) (Demo.start Demo.up)).
  - demo_delivers Demo.meeting_ended_no_metadata.
  - now right.
  - right. right. left. reflexivity.
Defined.

Lemma POST_redelivery_stores_again_witness :
  List.length
    (Demo.rows
       (env (snd (POST (Demo.signed Demo.booking_created)
                       (snd (POST (Demo.signed Demo.booking_created)
                                  (Demo.start Demo.up))))))) = 2%nat /\
  bookings_of
    (trace (snd (POST (Demo.signed Demo.booking_created)
                      (snd (POST (Demo.signed Demo.booking_created)
                                 (Demo.start Demo.up)))))) =
  [localBooking_input Demo.booking_payload Demo.booking_data Demo.booking_attendee;
   localBooking_input Demo.booking_payload Demo.booking_data Demo.booking_attendee].
Proof.
  split; [reflexivity|].
  apply (POST_redelivery_stores_again (C := Demo.collaborators)
           (Demo.signed Demo.booking_created) Demo.booking_payload Demo.booking_data
           Demo.booking_attendee [] (Demo.start Demo.up)).
  - demo_delivers Demo.booking_created.
  - reflexivity.
  - reflexivity.
Defined.

Lemma POST_response_bodies_witness :
  fst (POST (Demo.signed Demo.no_show_paid) (Demo.start Demo.broken))
    = inr {| status := 500; body := error_body "Failed to process refund" |} /\
  In "Failed to process refund" error_messages.
Proof.
  split; [reflexivity|].
  destruct (POST_response_bodies (C := Demo.collaborators)
              (Demo.signed Demo.no_show_paid) (Demo.start Demo.broken)
              (snd (POST (Demo.signed Demo.no_show_paid) (Demo.start Demo.broken)))
              {| status := 500; body := error_body "Failed to process refund" |})
    as [[Hstatus _] | [[Hstatus _] | (_ & message & Hin & Hbody)]].
  - reflexivity.
  - discriminate Hstatus.
  - discriminate Hstatus.
  - injection Hbody as <-. exact Hin.
Defined.

Lemma POST_booking_created_verdict_witness :
  fst (POST (Demo.signed Demo.malformed_booking) (Demo.start Demo.up))
    = inr {| status := 400; body := error_body "Invalid booking payload" |} /\
  exists issues, safeParse (Js.VObj [("uid", Js.VStr "bk_2")]) = inl issues.
Proof.
  split; [reflexivity|].
  destruct (POST_booking_created_verdict (C := Demo.collaborators)
              (Demo.signed Demo.malformed_booking) (Js.VObj [("uid", Js.VStr "bk_2")])
              (Demo.start Demo.up)
              (snd (POST (Demo.signed Demo.malformed_booking) (Demo.start Demo.up)))
              {| status := 400; body := error_body "Invalid booking payload" |})
    as [Hinvalid _].
  - demo_delivers Demo.malformed_booking.
  - reflexivity.
  - apply Hinvalid. reflexivity.
Defined.
